(** * testec2: the connectivity diagnostics and the gateway handlers

    A shallow embedding of [diagnose.js] (the command-line diagnostic
    run) and of the Express gateway (health, connection test, Firehose
    ingestion and OpenSearch search routes).

    Conventions of the embedding:
    - a JS string is a [string]; [String.prototype.includes] is [includes];
    - [process.env] and JS objects used as records are [gmap string _];
      a property whose value is [undefined] is an absent key, which is also
      what [JSON.stringify] (used by [res.json]) makes of it;
    - the remote services, the DNS resolver, the HTTP probe and the clock
      are inputs: a [World] record gives the outcome of every await;
    - every call to an external service is recorded in a trace, so that
      "stage n ran" and "the search was issued" are observable. *)

From Stdlib Require Import ZArith String Ascii List Bool Lia Sorted.
From stdpp Require Import base option gmap strings list fin_maps pretty.

Open Scope string_scope.
Open Scope Z_scope.

(** ** JS strings *)

Module JsString.

(** [p] is a prefix of [s]: the test behind [s.startsWith(p)]. *)
Fixpoint startsWith (s p : string) {struct p} : bool :=
  match p, s with
  | EmptyString, _ => true
  | String _ _, EmptyString => false
  | String c p', String d s' => if Ascii.eqb c d then startsWith s' p' else false
  end.

(** [s.includes(sub)]: some suffix of [s] starts with [sub]. *)
Fixpoint includes (s sub : string) : bool :=
  startsWith s sub ||
  match s with
  | EmptyString => false
  | String _ s' => includes s' sub
  end.

(** Truthiness of a string value: the empty string is falsy. *)
Definition truthy (s : string) : bool :=
  match s with EmptyString => false | String _ _ => true end.

(** Truthiness of a possibly undefined string (an environment variable,
    a parsed URL component). *)
Definition truthy_opt (o : option string) : bool :=
  match o with Some s => truthy s | None => false end.

(** [process.env.K || d]: an unset or empty variable gives the default. *)
Definition env_or (env : gmap string string) (k d : string) : string :=
  match env !! k with
  | Some s => if truthy s then s else d
  | None => d
  end.

End JsString.

Import JsString.

(** ** The fault taxonomy *)

Inductive FaultCategory :=
| Unconfigured
| DnsFailure
| NetworkUnreachable
| TimedOut
| AuthenticationFailure
| AuthorizationFailure
| ResourceNotFound
| Unknown.

#[global] Instance FaultCategory_eq_dec : EqDecision FaultCategory.
Proof. solve_decision. Defined.

(** ** diagnose.js *)

Module Diagnose.

(** The cascade of the catch block of [testOpenSearchClient]
    (diagnose.js, lines 132-138): the message is tested for ['timeout'],
    then for ['403'], then for ['ENOTFOUND']; the first test that holds
    selects the suggestion, and a message that passes none gets no
    suggestion.  Each branch is tagged with the category its suggestion
    is about. *)
Definition classify (message : string) : FaultCategory :=
  if includes message "timeout" then TimedOut
  else if includes message "403" then AuthorizationFailure
  else if includes message "ENOTFOUND" then DnsFailure
  else Unknown.

(** The suggestion line printed for a category; [None] when the
    cascade prints nothing. *)
Definition suggestion (c : FaultCategory) : option string :=
  match c with
  | TimedOut => Some "Check security groups and network ACLs"
  | AuthorizationFailure => Some "Check IAM permissions and access policy"
  | DnsFailure => Some "Check DNS resolution and VPC configuration"
  | _ => None
  end.

(** What [url.parse] returns, as far as the script reads it. *)
Record Url := {
  hostname : option string;
  port : option string;
  protocol : option string
}.

(** [options.port] is the port string of the URL or the number 443 / 80. *)
Inductive PortValue :=
| PortStr (s : string)
| PortNum (n : Z).

Record RequestOptions := {
  opt_hostname : option string;
  opt_port : PortValue;
  opt_path : string;
  opt_method : string;
  opt_timeout : Z;
  opt_rejectUnauthorized : bool
}.

Inductive HttpModule := Https | Http.

(** The three events the probe listens to.  The first one to fire settles
    the promise of [testBasicConnectivity], and the run goes on from
    there.  (The outcomes are those of a request that was issued: the
    port of the URL is taken to be a valid port.) *)
Inductive ProbeOutcome :=
| Response (statusCode : Z)
| Timeout
| RequestError (message : string).

(** The outcome of an awaited call: a value, or a raised [Error] of which
    the script reads the message only. *)
Inductive Result (A : Type) :=
| Returned (a : A)
| Raised (message : string).
Arguments Returned {A} a.
Arguments Raised {A} message.

Record ClusterInfo := {
  cluster_name : string;
  version_number : string
}.

(** The configuration handed to [new Client(...)]. *)
Record ClientConfig := {
  region : string;
  accessKeyId : option string;
  secretAccessKey : option string;
  node : option string;
  requestTimeout : Z
}.

(** The outside of the script: URL parsing, the resolver, the probe and
    the search cluster. *)
Record World := {
  url_parse : string -> Url;
  dns_resolve4 : option string -> Result (list string);
  http_request : HttpModule -> RequestOptions -> ProbeOutcome;
  client_info : ClientConfig -> Result ClusterInfo;
  indices_exists : ClientConfig -> string -> Result bool;
  indices_stats : ClientConfig -> string -> Result Z
}.

(** Calls that leave the process. *)
Inductive Call :=
| DnsResolve4 (host : option string)
| HttpGet (m : HttpModule) (o : RequestOptions)
| ReqDestroy
| OsInfo (cfg : ClientConfig)
| OsIndicesExists (cfg : ClientConfig) (index : string)
| OsIndicesStats (cfg : ClientConfig) (index : string).

(** Console lines, without colour codes, pictograms and durations. *)
Inductive Line :=
| Banner
| EnvReport (endpoint region : option string) (key secret : bool) (index : option string)
| EndpointRequired
| EndpointAnalysis (host : option string) (p : PortValue) (proto : option string)
| DnsSuccess (addresses : list string)
| DnsFailed (message : string)
| ConnectivitySuccess (statusCode : Z)
| ConnectivityTimeout
| ConnectivityFailed (message : string)
| ClientSuccess (info : ClusterInfo)
| ClientFailed (message : string)
| Suggestion (text : string)
| IndexExists (index : string)
| DocumentCount (n : Z)
| IndexMissing (index : string)
| IndexTestFailed (message : string).

Inductive Event :=
| Out (l : Line)
| Do (c : Call).

(** [parsedUrl.protocol === 'https:' ? 443 : 80] *)
Definition scheme_port (u : Url) : PortValue :=
  if bool_decide (protocol u = Some "https:") then PortNum 443 else PortNum 80.

(** [parsedUrl.port || (...)]: the declared port when there is one. *)
Definition default_port (u : Url) : PortValue :=
  match port u with
  | Some s => if truthy s then PortStr s else scheme_port u
  | None => scheme_port u
  end.

(** The options of the probe; [req.setTimeout(10000)] repeats the bound
    given here as [timeout]. *)
Definition request_options (u : Url) : RequestOptions :=
  {| opt_hostname := hostname u;
     opt_port := default_port u;
     opt_path := "/";
     opt_method := "GET";
     opt_timeout := 10000;
     opt_rejectUnauthorized := false |}.

Definition http_module (u : Url) : HttpModule :=
  if bool_decide (protocol u = Some "https:") then Https else Http.

(** [testBasicConnectivity(endpoint)]: the promise resolves in the
    response callback, in the timeout handler (after [req.destroy()]) and
    in the error handler alike, always with no value.  Destroying the
    request makes it emit ['error'] ("socket hang up"), so that the error
    handler prints its line after the timeout line. *)
Definition testBasicConnectivity (w : World) (endpoint : string) : list Event :=
  let parsedUrl := url_parse w endpoint in
  let options := request_options parsedUrl in
  let client := http_module parsedUrl in
  Do (HttpGet client options) ::
  match http_request w client options with
  | Response statusCode => [Out (ConnectivitySuccess statusCode)]
  | Timeout => [Out ConnectivityTimeout; Do ReqDestroy;
                Out (ConnectivityFailed "socket hang up")]
  | RequestError message => [Out (ConnectivityFailed message)]
  end.

Definition client_config (env : gmap string string) : ClientConfig :=
  {| region := env_or env "AWS_REGION" "us-east-1";
     accessKeyId := env !! "AWS_ACCESS_KEY_ID";
     secretAccessKey := env !! "AWS_SECRET_ACCESS_KEY";
     node := env !! "OPENSEARCH_ENDPOINT";
     requestTimeout := 30000 |}.

Definition suggestion_lines (message : string) : list Event :=
  match suggestion (classify message) with
  | Some text => [Out (Suggestion text)]
  | None => []
  end.

(** [testOpenSearchClient()]: the trace and the returned value (the client
    on success, [null] on failure). *)
Definition testOpenSearchClient (env : gmap string string) (w : World)
  : list Event * option ClientConfig :=
  let cfg := client_config env in
  match client_info w cfg with
  | Returned info => ([Do (OsInfo cfg); Out (ClientSuccess info)], Some cfg)
  | Raised message =>
      (Do (OsInfo cfg) :: Out (ClientFailed message) :: suggestion_lines message, None)
  end.

(** [testIndexExists()] *)
Definition testIndexExists (env : gmap string string) (w : World) : list Event :=
  let cfg := client_config env in
  let indexName := env_or env "OPENSEARCH_INDEX" "mydomain" in
  Do (OsIndicesExists cfg indexName) ::
  match indices_exists w cfg indexName with
  | Returned true =>
      Out (IndexExists indexName) :: Do (OsIndicesStats cfg indexName) ::
      match indices_stats w cfg indexName with
      | Returned docCount => [Out (DocumentCount docCount)]
      | Raised message => [Out (IndexTestFailed message)]
      end
  | Returned false =>
      [Out (IndexMissing indexName);
       Out (Suggestion "Create the index or check OPENSEARCH_INDEX variable")]
  | Raised message => [Out (IndexTestFailed message)]
  end.

Definition env_report (env : gmap string string) : Line :=
  EnvReport (env !! "OPENSEARCH_ENDPOINT") (env !! "AWS_REGION")
            (truthy_opt (env !! "AWS_ACCESS_KEY_ID"))
            (truthy_opt (env !! "AWS_SECRET_ACCESS_KEY"))
            (env !! "OPENSEARCH_INDEX").

(** [runDiagnostics()]: the two [return]s are the missing endpoint and
    the failed DNS resolution; the three tests that follow are awaited
    one after the other and their results are not inspected. *)
Definition runDiagnostics (env : gmap string string) (w : World) : list Event :=
  Out Banner :: Out (env_report env) ::
  match env !! "OPENSEARCH_ENDPOINT" with
  | None => [Out EndpointRequired]
  | Some endpoint =>
      if negb (truthy endpoint) then [Out EndpointRequired]
      else
        let parsedUrl := url_parse w endpoint in
        Out (EndpointAnalysis (hostname parsedUrl) (default_port parsedUrl)
                              (protocol parsedUrl)) ::
        Do (DnsResolve4 (hostname parsedUrl)) ::
        match dns_resolve4 w (hostname parsedUrl) with
        | Raised message => [Out (DnsFailed message)]
        | Returned addresses =>
            Out (DnsSuccess addresses) ::
            testBasicConnectivity w endpoint ++
            fst (testOpenSearchClient env w) ++
            testIndexExists env w
        end
  end.

(** *** Reading a trace as a run of the five stages *)

Inductive Stage := Configuration | Dns | Transport | Handshake | Resource.

#[global] Instance Stage_eq_dec : EqDecision Stage.
Proof. solve_decision. Defined.

(** The stage a call belongs to. *)
Definition stage_of_call (c : Call) : Stage :=
  match c with
  | DnsResolve4 _ => Dns
  | HttpGet _ _ | ReqDestroy => Transport
  | OsInfo _ => Handshake
  | OsIndicesExists _ _ | OsIndicesStats _ _ => Resource
  end.

Definition calls (t : list Event) : list Call :=
  omap (fun e => match e with Do c => Some c | Out _ => None end) t.

(** Stage [st] executed: one of its calls was made. *)
Definition executed (st : Stage) (t : list Event) : bool :=
  existsb (fun c => bool_decide (stage_of_call c = st)) (calls t).

(** The failure line of a stage, if the line is one. *)
Definition failure_of (l : Line) : option Stage :=
  match l with
  | EndpointRequired => Some Configuration
  | DnsFailed _ => Some Dns
  | ConnectivityTimeout | ConnectivityFailed _ => Some Transport
  | ClientFailed _ => Some Handshake
  | IndexTestFailed _ => Some Resource
  | _ => None
  end.

(** Stage [st] failed: its failure line was printed. *)
Definition failed (st : Stage) (t : list Event) : bool :=
  existsb (fun e => match e with
                    | Out l => bool_decide (failure_of l = Some st)
                    | Do _ => false
                    end) t.

Inductive Outcome :=
| Success
| Failure (c : FaultCategory) (detail : string).

(** The finding a console line stands for.  The categories are those of
    the stage table: a missing endpoint is [Unconfigured], a failed
    resolution [DnsFailure], a probe timeout [TimedOut], a probe error
    [NetworkUnreachable]; the messages of the client stages go through
    [classify]. *)
Definition finding_of (l : Line) : option (Stage * Outcome) :=
  match l with
  | EndpointRequired =>
      Some (Configuration, Failure Unconfigured "OPENSEARCH_ENDPOINT is required")
  | DnsSuccess _ => Some (Dns, Success)
  | DnsFailed m => Some (Dns, Failure DnsFailure m)
  | ConnectivitySuccess _ => Some (Transport, Success)
  | ConnectivityTimeout => Some (Transport, Failure TimedOut "TIMEOUT (10s)")
  | ConnectivityFailed m => Some (Transport, Failure NetworkUnreachable m)
  | ClientSuccess _ => Some (Handshake, Success)
  | ClientFailed m => Some (Handshake, Failure (classify m) m)
  | IndexExists _ | IndexMissing _ => Some (Resource, Success)
  | IndexTestFailed m => Some (Resource, Failure (classify m) m)
  | _ => None
  end.

Definition report (t : list Event) : list (Stage * Outcome) :=
  omap (fun e => match e with Out l => finding_of l | Do _ => None end) t.

(** The three ways a run can go: no endpoint, a failed resolution, or the
    three tests in sequence. *)
Inductive RunShape (env : gmap string string) (w : World) : list Event -> Prop :=
| NoEndpoint :
    truthy_opt (env !! "OPENSEARCH_ENDPOINT") = false ->
    RunShape env w [Out Banner; Out (env_report env); Out EndpointRequired]
| DnsDown endpoint message :
    env !! "OPENSEARCH_ENDPOINT" = Some endpoint ->
    truthy endpoint = true ->
    dns_resolve4 w (hostname (url_parse w endpoint)) = Raised message ->
    RunShape env w
      [Out Banner; Out (env_report env);
       Out (EndpointAnalysis (hostname (url_parse w endpoint))
              (default_port (url_parse w endpoint)) (protocol (url_parse w endpoint)));
       Do (DnsResolve4 (hostname (url_parse w endpoint)));
       Out (DnsFailed message)]
| AllTests endpoint addresses :
    env !! "OPENSEARCH_ENDPOINT" = Some endpoint ->
    truthy endpoint = true ->
    dns_resolve4 w (hostname (url_parse w endpoint)) = Returned addresses ->
    RunShape env w
      ([Out Banner; Out (env_report env);
        Out (EndpointAnalysis (hostname (url_parse w endpoint))
               (default_port (url_parse w endpoint)) (protocol (url_parse w endpoint)));
        Do (DnsResolve4 (hostname (url_parse w endpoint)));
        Out (DnsSuccess addresses)] ++
       testBasicConnectivity w endpoint ++
       fst (testOpenSearchClient env w) ++ testIndexExists env w)%list.

End Diagnose.

(** *** Scenarios *)

Module Scenario.
Import Diagnose.

(** A cluster in a VPC whose endpoint resolves and answers the probe, and
    which rejects the signed calls. *)
Definition demo_endpoint : string := "https://vpc-demo.us-east-1.es.amazonaws.com".

Definition demo_url : Url :=
  {| hostname := Some "vpc-demo.us-east-1.es.amazonaws.com";
     port := None;
     protocol := Some "https:" |}.

Definition invalid_token : string :=
  "The security token included in the request is invalid".

Definition rejecting_world (probe : ProbeOutcome) : World :=
  {| url_parse := fun _ => demo_url;
     dns_resolve4 := fun _ => Returned ["10.0.12.7"];
     http_request := fun _ _ => probe;
     client_info := fun _ => Raised invalid_token;
     indices_exists := fun _ _ => Raised invalid_token;
     indices_stats := fun _ _ => Raised invalid_token |}.

Definition full_env : gmap string string :=
  <["OPENSEARCH_ENDPOINT" := demo_endpoint]>
  (<["AWS_ACCESS_KEY_ID" := "AKIAEXAMPLE"]>
  (<["AWS_SECRET_ACCESS_KEY" := "secret"]> ∅)).


End Scenario.

(** ** The gateway *)

Module Gateway.

Set Warnings "-register-all".

(** JSON values; a JS object is a finite map of its own properties. *)
Inductive json :=
| JNull
| JBool (b : bool)
| JNum (n : Z)
| JStr (s : string)
| JArr (l : list json)
| JObj (m : gmap string json).

(** JS truthiness; [undefined] is [None]. *)
Definition truthy_json (j : json) : bool :=
  match j with
  | JNull => false
  | JBool b => b
  | JNum n => negb (n =? 0)
  | JStr s => truthy s
  | JArr _ | JObj _ => true
  end.

Definition truthy_val (o : option json) : bool :=
  match o with Some j => truthy_json j | None => false end.

(** [a || b] *)
Definition js_or (a b : option json) : option json :=
  if truthy_val a then a else b.

(** [o.k] for a value that is not [null] or [undefined]. *)
Definition prop (k : string) (j : json) : option json :=
  match j with
  | JObj m => m !! k
  | _ => None
  end.

(** [k: v] in an object literal: the property is set, replacing an
    earlier one of the same name; a property set to [undefined] does not
    reach the JSON text. *)
Definition set_prop (k : string) (v : option json) (m : gmap string json)
  : gmap string json :=
  match v with
  | Some j => <[k:=j]> m
  | None => delete k m
  end.

(** An object literal [{...base, k1: v1, ..., kn: vn}]. *)
Definition js_object (base : gmap string json) (fields : list (string * option json))
  : gmap string json :=
  foldl (fun m kv => set_prop kv.1 kv.2 m) base fields.

(** The own enumerable properties copied by [...v]: those of an object,
    the indexed elements of an array, the indexed characters of a string;
    nothing for [undefined], [null], booleans and numbers. *)
Definition spread (v : option json) : gmap string json :=
  match v with
  | Some (JObj m) => m
  | Some (JArr l) => list_to_map (imap (fun i x => (pretty i, x)) l)
  | Some (JStr s) =>
      list_to_map (imap (fun i c => (pretty i, JStr (String c EmptyString)))
                        (list_ascii_of_string s))
  | _ => ∅
  end.

Definition str (s : string) : option json := Some (JStr s).
Definition opt_str (o : option string) : option json := JStr <$> o.

(** *** [parseInt] with one argument

    A string is read as a sequence of code units below 256.  The result
    is [None] for [NaN] and the integer otherwise; [-0] is [0].  (The
    integer is exact here, where JS rounds it to a double above 2^53;
    rounding never turns a number into [0] or [NaN].) *)

Definition is_whitespace (c : ascii) : bool :=
  let n := nat_of_ascii c in
  ((9 <=? n) && (n <=? 13) || (n =? 32) || (n =? 160))%nat.

Fixpoint trim_start (s : string) : string :=
  match s with
  | String c s' => if is_whitespace c then trim_start s' else s
  | EmptyString => s
  end.

(** The value of a digit in radix 10 or 16. *)
Definition digit_value (radix : Z) (c : ascii) : option Z :=
  let n := Z.of_nat (nat_of_ascii c) in
  let v := if (48 <=? n) && (n <=? 57) then Some (n - 48)
           else if (97 <=? n) && (n <=? 122) then Some (n - 87)
           else if (65 <=? n) && (n <=? 90) then Some (n - 55)
           else None in
  match v with
  | Some d => if d <? radix then Some d else None
  | None => None
  end.

(** The longest prefix of digits, read in [radix]; [acc] is [None] until
    a digit has been seen. *)
Fixpoint parse_digits (radix : Z) (s : string) (acc : option Z) : option Z :=
  match s with
  | String c s' =>
      match digit_value radix c with
      | Some d => parse_digits radix s' (Some (default 0 acc * radix + d))
      | None => acc
      end
  | EmptyString => acc
  end.

(** An optional sign: [(sign, rest)]. *)
Definition strip_sign (s : string) : Z * string :=
  match s with
  | String c s' =>
      if Ascii.eqb c "-" then (-1, s')
      else if Ascii.eqb c "+" then (1, s')
      else (1, s)
  | EmptyString => (1, s)
  end.

(** With no radix given, a leading [0x] or [0X] selects radix 16:
    [(radix, rest)]. *)
Definition strip_radix_prefix (s : string) : Z * string :=
  match s with
  | String c (String d s') =>
      if Ascii.eqb c "0" && (Ascii.eqb d "x" || Ascii.eqb d "X")
      then (16, s') else (10, s)
  | _ => (10, s)
  end.

Definition parseInt_string (input : string) : option Z :=
  let '(sign, s) := strip_sign (trim_start input) in
  let '(radix, s) := strip_radix_prefix s in
  (fun n => sign * n) <$> parse_digits radix s None.

Definition is_decimal_digit (c : ascii) : bool :=
  let n := Z.of_nat (nat_of_ascii c) in
  (48 <=? n) && (n <=? 57).

(** A string that, after white space and a sign, does not start with a
    decimal digit. *)
Definition non_numeric (s : string) : bool :=
  match snd (strip_sign (trim_start s)) with
  | String c _ => negb (is_decimal_digit c)
  | EmptyString => true
  end.

(** A value of [req.query]: a string, an array (a repeated parameter) or
    a nested object. *)
Inductive QueryValue :=
| QString (s : string)
| QArray (l : list QueryValue)
| QObject.

(** [ToString] of a query value; an array joins its elements with
    commas. *)
Fixpoint toString (v : QueryValue) : string :=
  match v with
  | QString s => s
  | QArray l => String.concat "," (map toString l)
  | QObject => "[object Object]"
  end.

(** [parseInt(req.query.k)]: an absent parameter is [undefined], which
    [parseInt] reads as the string "undefined". *)
Definition parseInt (v : option QueryValue) : option Z :=
  match v with
  | Some q => parseInt_string (toString q)
  | None => parseInt_string "undefined"
  end.

(** [parseInt(v) || d]: [NaN] and [0] are falsy. *)
Definition parseInt_or (v : option QueryValue) (d : Z) : Z :=
  match parseInt v with
  | Some n => if n =? 0 then d else n
  | None => d
  end.

(** The parameter values for which [parseInt(v) || d] is [d]: the
    parameter is absent, it is a string that is not numeric, or it is
    parsed as [NaN] or as [0]. *)
Definition defaulted (v : option QueryValue) : Prop :=
  v = None \/
  (exists s, v = Some (QString s) /\ non_numeric s = true) \/
  parseInt v = None \/
  parseInt v = Some 0.

(** *** Requests, responses and the services behind the gateway *)

Record Request := {
  req_query : gmap string QueryValue;
  req_body : option json
}.

Record Response := {
  status : Z;
  body : gmap string json
}.

(** A raised [Error], with the properties the handlers read. *)
Record Error := {
  message : string;
  code : option json;
  statusCode : option json
}.

Inductive Result (A : Type) :=
| Returned (a : A)
| Raised (error : Error).
Arguments Returned {A} a.
Arguments Raised {A} error.

(** [info.body], as far as it is read. *)
Record ClusterInfo := {
  cluster_name : option json;
  version_number : option json
}.

Record Hit := {
  hit_id : option json;
  hit_source : option json;
  hit_score : option json
}.

(** [response.body.hits] *)
Record Hits := {
  total : json;
  hits : list Hit
}.

Inductive Query :=
| MatchAll
| ExistsField (field : string).

(** The argument of [opensearchClient.search]; every handler sorts by
    ['@timestamp'], descending. *)
Record SearchRequest := {
  index : string;
  query : Query;
  size : Z;
  from : option Z;
  sort_desc : string
}.

(** The argument of [PutRecordCommand]; [Data] is the JSON text of the
    record followed by a newline, kept here as the record itself. *)
Record PutRecordInput := {
  DeliveryStreamName : option string;
  Data : gmap string json
}.

Record World := {
  date_now : nat -> Z;             (* the k-th reading of the clock *)
  toISOString : Z -> string;
  info : Result ClusterInfo;
  indices_exists : string -> Result bool;
  search : SearchRequest -> Result Hits;
  firehose_send : PutRecordInput -> Result (option json)   (* RecordId *)
}.

Inductive Call :=
| OsInfo
| OsIndicesExists (index : string)
| OsSearch (r : SearchRequest)
| FirehosePutRecord (p : PutRecordInput).

(** [new Date().toISOString()], at the k-th reading of the clock. *)
Definition iso (w : World) (k : nat) : option json :=
  str (toISOString w (date_now w k)).

(** [`${Date.now() - startTime}ms`], the clock read at 0 and at 1. *)
Definition elapsed (w : World) : option json :=
  str (pretty (date_now w 1 - date_now w 0) +:+ "ms").

(** [`${Date.now() - startTime}ms`], the clock read at 0 and at [k]. *)
Definition elapsed_at (w : World) (k : nat) : option json :=
  str (pretty (date_now w k - date_now w 0) +:+ "ms").

Definition jbool (b : bool) : option json := Some (JBool b).

(** [res.json(o)] and [res.status(c).json(o)] *)
Definition res_json (fields : list (string * option json)) : Response :=
  {| status := 200; body := js_object ∅ fields |}.

Definition res_status_json (c : Z) (fields : list (string * option json)) : Response :=
  {| status := c; body := js_object ∅ fields |}.

Definition obj (fields : list (string * option json)) : option json :=
  Some (JObj (js_object ∅ fields)).

(** *** The handlers *)

Section Handlers.

Variable env : gmap string string.
Variable w : World.

(** GET /health *)
Definition health (req : Request) : Response * list Call :=
  (res_json
     [("status", str "healthy");
      ("message", str "Running on EC2 with VPC OpenSearch access and AWS credentials!");
      ("timestamp", iso w 0);
      ("environment", str "production");
      ("opensearchEndpoint", opt_str (env !! "OPENSEARCH_ENDPOINT"));
      ("firehoseStream", opt_str (env !! "FIREHOSE_DELIVERY_STREAM_NAME"));
      ("hasCredentials", jbool (truthy_opt (env !! "AWS_ACCESS_KEY_ID") &&
                               truthy_opt (env !! "AWS_SECRET_ACCESS_KEY")));
      ("region", str (env_or env "AWS_REGION" "us-east-1"))],
   []).

(** GET /test-connection *)
Definition test_connection (req : Request) : Response * list Call :=
  (match info w with
   | Returned i =>
       res_json
         [("success", jbool true);
          ("message", str "OpenSearch connection successful!");
          ("connectionTime", elapsed w);
          ("opensearchVersion", version_number i);
          ("clusterName", cluster_name i);
          ("endpoint", opt_str (env !! "OPENSEARCH_ENDPOINT"));
          ("timestamp", iso w 2)]
   | Raised error =>
       let m := message error in
       res_status_json 500
         [("success", jbool false);
          ("error", str m);
          ("errorCode", code error);
          ("connectionTime", elapsed w);
          ("endpoint", opt_str (env !! "OPENSEARCH_ENDPOINT"));
          ("troubleshooting", obj
             [("networkIssue", jbool (includes m "timeout" || includes m "ENOTFOUND"));
              ("authIssue", jbool (includes m "403" || includes m "Forbidden"));
              ("configIssue", jbool (includes m "404" || includes m "Not Found"))]);
          ("timestamp", iso w 2)]
   end,
   [OsInfo]).

(** [{...data, timestamp: ..., '@timestamp': ...}] *)
Definition make_record (data : option json) : gmap string json :=
  js_object (spread data) [("timestamp", iso w 0); ("@timestamp", iso w 1)].

(** The body shared by POST /send and POST /send-pipe-data, once the
    data is chosen. *)
Definition put_record (data : option json) (msg : string) : Response * list Call :=
  let record := make_record data in
  let params :=
    {| DeliveryStreamName := env !! "FIREHOSE_DELIVERY_STREAM_NAME";
       Data := record |} in
  (match firehose_send w params with
   | Returned recordId =>
       res_json
         [("success", jbool true);
          ("message", str msg);
          ("recordId", recordId);
          ("data", data);
          ("timestamp", iso w 2)]
   | Raised error =>
       res_status_json 500
         [("success", jbool false);
          ("error", str (message error));
          ("timestamp", iso w 2)]
   end,
   [FirehosePutRecord params]).

(** POST /send *)
Definition send (req : Request) : Response * list Call :=
  put_record (req_body req) "Data sent to Firehose successfully".

(** POST /send-pipe-data: [req.body || { "pipe-20": 112 }] *)
Definition send_pipe_data (req : Request) : Response * list Call :=
  let pipeData := js_or (req_body req) (obj [("pipe-20", Some (JNum 112))]) in
  put_record pipeData "Pipe data sent to Firehose successfully".

(** [response.body.hits.total.value || response.body.hits.total]; reading
    [.value] of [null] raises a [TypeError]. *)
Definition total_value (t : json) : Result (option json) :=
  match t with
  | JNull =>
      Raised {| message := "Cannot read properties of null (reading 'value')";
                code := None; statusCode := None |}
  | _ => Returned (js_or (prop "value" t) (Some t))
  end.

Definition hit_json (h : Hit) : json :=
  JObj (js_object ∅ [("id", hit_id h); ("source", hit_source h); ("score", hit_score h)]).

(** The fields every successful search response starts with. *)
Definition search_fields (t : option json) (h : Hits) : list (string * option json) :=
  [("success", jbool true);
   ("total", t);
   ("count", Some (JNum (Z.of_nat (length (hits h)))));
   ("data", Some (JArr (map hit_json (hits h))))].

Definition search_failed (error : Error) : Response :=
  res_status_json 500
    [("success", jbool false);
     ("error", str (message error));
     ("timestamp", iso w 0)].

(** GET /search/all *)
Definition search_all (req : Request) : Response * list Call :=
  let size := parseInt_or (req_query req !! "size") 10 in
  let from := parseInt_or (req_query req !! "from") 0 in
  let r := {| index := env_or env "OPENSEARCH_INDEX" "mydomain";
              query := MatchAll; size := size; from := Some from;
              sort_desc := "@timestamp" |} in
  (match search w r with
   | Returned h =>
       match total_value (total h) with
       | Returned t =>
           res_json (search_fields t h ++
                     [("note", str "Real data from VPC OpenSearch domain!");
                      ("timestamp", iso w 0)])
       | Raised error => search_failed error
       end
   | Raised error => search_failed error
   end,
   [OsSearch r]).

(** GET /search/pipe-data *)
Definition search_pipe_data (req : Request) : Response * list Call :=
  let size := parseInt_or (req_query req !! "size") 10 in
  let r := {| index := env_or env "OPENSEARCH_INDEX" "mydomain";
              query := ExistsField "pipe-20"; size := size; from := None;
              sort_desc := "@timestamp" |} in
  (match search w r with
   | Returned h =>
       match total_value (total h) with
       | Returned t =>
           res_json (search_fields t h ++
                     [("note", str "Real pipe-20 data from OpenSearch!");
                      ("timestamp", iso w 0)])
       | Raised error => search_failed error
       end
   | Raised error => search_failed error
   end,
   [OsSearch r]).

(** The catch block of GET /search/real-opensearch *)
Definition real_opensearch_failed (error : Error) : Response :=
  let m := message error in
  res_status_json 500
    [("success", jbool false);
     ("error", str ("Failed to query real OpenSearch: " +:+ m));
     ("errorCode", code error);
     ("statusCode", statusCode error);
     ("queryTime", elapsed w);
     ("troubleshooting", obj
        [("timeoutIssue", jbool (includes m "timeout" || includes m "Request timed out"));
         ("networkIssue", jbool (includes m "ENOTFOUND" || includes m "ECONNREFUSED"));
         ("authIssue", jbool (includes m "403" || includes m "Forbidden"));
         ("indexIssue", jbool (includes m "404" || includes m "index_not_found_exception"))]);
     ("timestamp", iso w 2)].

(** The catch block of GET /search/real-opensearch, entered from the
    response object: the duration of the try block has been computed by
    then, so that the clock is read here for the third and the fourth
    time. *)
Definition real_opensearch_failed_late (error : Error) : Response :=
  let m := message error in
  res_status_json 500
    [("success", jbool false);
     ("error", str ("Failed to query real OpenSearch: " +:+ m));
     ("errorCode", code error);
     ("statusCode", statusCode error);
     ("queryTime", elapsed_at w 2);
     ("troubleshooting", obj
        [("timeoutIssue", jbool (includes m "timeout" || includes m "Request timed out"));
         ("networkIssue", jbool (includes m "ENOTFOUND" || includes m "ECONNREFUSED"));
         ("authIssue", jbool (includes m "403" || includes m "Forbidden"));
         ("indexIssue", jbool (includes m "404" || includes m "index_not_found_exception"))]);
     ("timestamp", iso w 3)].

(** GET /search/real-opensearch *)
Definition search_real_opensearch (req : Request) : Response * list Call :=
  let indexName := env_or env "OPENSEARCH_INDEX" "mydomain" in
  let size := parseInt_or (req_query req !! "size") 10 in
  let from := parseInt_or (req_query req !! "from") 0 in
  match indices_exists w indexName with
  | Raised error => (real_opensearch_failed error, [OsIndicesExists indexName])
  | Returned false =>
      (res_status_json 404
         [("success", jbool false);
          ("error", str ("Index '" +:+ indexName +:+ "' does not exist"));
          ("suggestion", str "Check your OPENSEARCH_INDEX environment variable or create the index first");
          ("timestamp", iso w 1)],
       [OsIndicesExists indexName])
  | Returned true =>
      let r := {| index := indexName; query := MatchAll; size := size;
                  from := Some from; sort_desc := "@timestamp" |} in
      (match search w r with
       | Returned h =>
           match total_value (total h) with
           | Returned t =>
               res_json (search_fields t h ++
                         [("queryTime", elapsed w);
                          ("note", str "Real OpenSearch data successfully retrieved from EC2!");
                          ("endpoint", opt_str (env !! "OPENSEARCH_ENDPOINT"));
                          ("index", str indexName);
                          ("timestamp", iso w 2)])
           | Raised error => real_opensearch_failed_late error
           end
       | Raised error => real_opensearch_failed error
       end,
       [OsIndicesExists indexName; OsSearch r])
  end.

(** The routes of the gateway. *)
Inductive Route :=
| Health
| TestConnection
| Send
| SendPipeData
| SearchAll
| SearchPipeData
| SearchRealOpensearch.

Definition handle (r : Route) : Request -> Response * list Call :=
  match r with
  | Health => health
  | TestConnection => test_connection
  | Send => send
  | SendPipeData => send_pipe_data
  | SearchAll => search_all
  | SearchPipeData => search_pipe_data
  | SearchRealOpensearch => search_real_opensearch
  end.

End Handlers.

(** The value an object literal gives to [k]: that of the last field
    named [k]. *)
Fixpoint field_last (k : string) (fields : list (string * option json))
  : option (option json) :=
  match fields with
  | [] => None
  | kv :: rest =>
      match field_last k rest with
      | Some v => Some v
      | None => if String.eqb k kv.1 then Some kv.2 else None
      end
  end.

(** [body.troubleshooting[name]] of a response. *)
Definition troubleshooting (name : string) (resp : Response) : option json :=
  body resp !! "troubleshooting" ≫= prop name.

(** The search requests in a trace. *)
Definition searches (t : list Call) : list SearchRequest :=
  omap (fun c => match c with OsSearch r => Some r | _ => None end) t.

(** The records put on the delivery stream in a trace. *)
Definition records (t : list Call) : list (gmap string json) :=
  omap (fun c => match c with FirehosePutRecord p => Some (Data p) | _ => None end) t.

End Gateway.

(** *** Scenarios *)

Module GatewayScenario.
Import Gateway.

Definition gateway_env : gmap string string :=
  <["OPENSEARCH_ENDPOINT" := "https://vpc-demo.us-east-1.es.amazonaws.com"]>
  (<["AWS_ACCESS_KEY_ID" := "AKIAEXAMPLE"]>
  (<["AWS_SECRET_ACCESS_KEY" := "secret"]>
  (<["FIREHOSE_DELIVERY_STREAM_NAME" := "events"]> ∅))).

Definition error_of (m : string) : Error :=
  {| message := m; code := None; statusCode := None |}.

(** A cluster on which the existence check answers [exists] and every
    other call raises an error with message [m]; the clock stands still. *)
Definition failing_world (exists_ : bool) (m : string) : World :=
  {| date_now := fun _ => 1700000000000;
     toISOString := fun _ => "2023-11-14T22:13:20.000Z";
     info := Raised (error_of m);
     indices_exists := fun _ => Returned exists_;
     search := fun _ => Raised (error_of m);
     firehose_send := fun _ => Raised (error_of m) |}.

(** A cluster with one document and a stream that accepts records. *)
Definition working_world : World :=
  {| date_now := fun _ => 1700000000000;
     toISOString := fun _ => "2023-11-14T22:13:20.000Z";
     info := Returned {| cluster_name := str "demo"; version_number := str "2.11.0" |};
     indices_exists := fun _ => Returned true;
     search := fun _ =>
       Returned {| total := JObj (<["value" := JNum 1]> ∅);
                   hits := [{| hit_id := str "a1";
                               hit_source := obj [("pipe-20", Some (JNum 112))];
                               hit_score := Some JNull |}] |};
     firehose_send := fun _ => Returned (str "rec-1") |}.

Definition get (q : list (string * QueryValue)) : Request :=
  {| req_query := list_to_map q; req_body := None |}.

Definition post (b : option json) : Request :=
  {| req_query := ∅; req_body := b |}.

End GatewayScenario.

(** ** list-indices.js *)

Module ListIndices.
Import Diagnose.

(** One row of [client.cat.indices({ format: 'json' })]; the values of
    the cat API are strings, and a column can be missing. *)
Record CatIndex := {
  cat_index : option string;
  cat_docs_count : option string;
  cat_store_size : option string
}.

Record World := {
  cat_indices : ClientConfig -> Result (option (list CatIndex));  (* response.body *)
  client_info : ClientConfig -> Result ClusterInfo
}.

Inductive Call :=
| CatIndices (cfg : ClientConfig)
| Info (cfg : ClientConfig).

(** Console lines.  [NetworkHints] stands for the four lines printed for
    a timeout, [PermissionHints] for the three lines printed for a 403. *)
Inductive Line :=
| Connecting
| Endpoint (e : option string)
| AvailableIndices
| IndexLine (name docs size : string)
| NoIndicesFound
| ConnectionSuccessful (info : ClusterInfo)
| ErrorLine (message : string)
| NetworkHints
| PermissionHints.

Inductive Event :=
| Out (l : Line)
| Do (c : Call).

(** The client of this script waits 60 seconds. *)
Definition client_config (env : gmap string string) : ClientConfig :=
  {| region := env_or env "AWS_REGION" "us-east-1";
     accessKeyId := env !! "AWS_ACCESS_KEY_ID";
     secretAccessKey := env !! "AWS_SECRET_ACCESS_KEY";
     node := env !! "OPENSEARCH_ENDPOINT";
     requestTimeout := 60000 |}.

(** [v || d] inside a template literal. *)
Definition or_text (v : option string) (d : string) : string :=
  match v with
  | Some s => if truthy s then s else d
  | None => d
  end.

(** The line of one index; an [undefined] name prints as "undefined". *)
Definition index_line (i : CatIndex) : Line :=
  IndexLine (default "undefined" (cat_index i))
            (or_text (cat_docs_count i) "0")
            (or_text (cat_store_size i) "0b").

(** [response.body && response.body.length > 0] *)
Definition listing (body : option (list CatIndex)) : list Event :=
  match body with
  | Some (i :: l) => map (fun x => Out (index_line x)) (i :: l)
  | _ => [Out NoIndicesFound]
  end.

(** The catch block: the message, then the hints of the first test that
    holds. *)
Definition error_lines (message : string) : list Event :=
  Out (ErrorLine message) ::
  if includes message "timeout" then [Out NetworkHints]
  else if includes message "403" then [Out PermissionHints]
  else [].

(** [listIndices()] *)
Definition listIndices (env : gmap string string) (w : World) : list Event :=
  let cfg := client_config env in
  Out Connecting :: Out (Endpoint (env !! "OPENSEARCH_ENDPOINT")) ::
  Do (CatIndices cfg) ::
  match cat_indices w cfg with
  | Raised message => error_lines message
  | Returned body =>
      Out AvailableIndices :: listing body ++
      Do (Info cfg) ::
      match client_info w cfg with
      | Returned info => [Out (ConnectionSuccessful info)]
      | Raised message => error_lines message
      end
  end.

Definition calls (t : list Event) : list Call :=
  omap (fun e => match e with Do c => Some c | Out _ => None end) t.




End ListIndices.

(** ** Observations on the diagnostic run *)

Module DiagnoseObservations.
Import Diagnose.

(** The position of a stage in the sequence. *)
Definition stage_rank (st : Stage) : nat :=
  match st with
  | Configuration => 1
  | Dns => 2
  | Transport => 3
  | Handshake => 4
  | Resource => 5
  end.


(** A cluster that answers every call; the index exists or not. *)
Definition healthy_world (index_exists : bool) : World :=
  {| url_parse := fun _ => Scenario.demo_url;
     dns_resolve4 := fun _ => Returned ["10.0.12.7"];
     http_request := fun _ _ => Response 200;
     client_info := fun _ => Returned {| cluster_name := "demo"; version_number := "2.11.0" |};
     indices_exists := fun _ _ => Returned index_exists;
     indices_stats := fun _ _ => Returned 42 |}.

(** A resolver that does not know the host. *)
Definition unresolved_world : World :=
  {| url_parse := fun _ => Scenario.demo_url;
     dns_resolve4 := fun _ =>
       Raised "queryA ENOTFOUND vpc-demo.us-east-1.es.amazonaws.com";
     http_request := fun _ _ => Response 200;
     client_info := fun _ => Returned {| cluster_name := "demo"; version_number := "2.11.0" |};
     indices_exists := fun _ _ => Returned true;
     indices_stats := fun _ _ => Returned 42 |}.

End DiagnoseObservations.

(** ** The start of the gateway, and its older copy *)

Module GatewayStartup.
Import Gateway.

Definition requiredEnvVars : list string :=
  ["OPENSEARCH_ENDPOINT"; "AWS_ACCESS_KEY_ID"; "AWS_SECRET_ACCESS_KEY";
   "FIREHOSE_DELIVERY_STREAM_NAME"].

(** [requiredEnvVars.filter(varName => !process.env[varName])] *)
Definition missingEnvVars (env : gmap string string) : list string :=
  List.filter (fun varName => negb (truthy_opt (env !! varName))) requiredEnvVars.

(** The process exits with code 1 when a variable is missing; otherwise
    the routes are installed and the gateway listens. *)
Definition listens (env : gmap string string) : bool :=
  match missingEnvVars env with
  | [] => true
  | _ :: _ => false
  end.

(** The service a call goes to. *)
Inductive Service := OpenSearch | Firehose.

Definition service_of_call (c : Call) : Service :=
  match c with
  | OsInfo | OsIndicesExists _ | OsSearch _ => OpenSearch
  | FirehosePutRecord _ => Firehose
  end.

Definition is_search_route (r : Route) : bool :=
  match r with
  | SearchAll | SearchPipeData | SearchRealOpensearch => true
  | _ => false
  end.

Definition is_send_route (r : Route) : bool :=
  match r with
  | Send | SendPipeData => true
  | _ => false
  end.

End GatewayStartup.

(** ** The application: what comes before a callback *)

Module GatewayApp.
Import Gateway.

(** The method and the path each callback is registered for. *)
Definition registration (r : Route) : string * string :=
  match r with
  | Health => ("GET", "/health")
  | TestConnection => ("GET", "/test-connection")
  | Send => ("POST", "/send")
  | SendPipeData => ("POST", "/send-pipe-data")
  | SearchAll => ("GET", "/search/all")
  | SearchPipeData => ("GET", "/search/pipe-data")
  | SearchRealOpensearch => ("GET", "/search/real-opensearch")
  end.

(** What becomes of a request before a callback runs.  [cors()],
    [express.json()] and the router are library code, installed in this
    order in front of the seven routes; their verdict on a request is an
    input.
    - [Answered status]: the request is answered without any callback of
      the gateway.  This is the CORS preflight of an OPTIONS request
      (204), a body that [express.json()] rejects (the error page of
      Express, 400 for malformed JSON), and a path or method for which no
      route is registered (the 404 page of Express).
    - [Routed head r req]: the callback of route [r] runs on the parsed
      request [req]; [head] tells a HEAD request served by the callback
      of a GET route, the response of which is sent without its body. *)
Inductive Dispatch :=
| Answered (status : Z)
| Routed (head : bool) (r : Route) (req : Request).

(** What the client receives: a JSON body written by a callback, or a
    response that carries no JSON body of the gateway. *)
Inductive Reply :=
| Json (resp : Response)
| Bodyless (status : Z).

Definition app (env : gmap string string) (w : World) (d : Dispatch)
  : Reply * list Call :=
  match d with
  | Answered status => (Bodyless status, [])
  | Routed head r req =>
      let out := handle env w r req in
      (if head then Bodyless (status out.1) else Json out.1, out.2)
  end.

Definition reply_status (reply : Reply) : Z :=
  match reply with
  | Json resp => status resp
  | Bodyless status => status
  end.

(** A property of the JSON body received, if there is one. *)
Definition reply_prop (k : string) (reply : Reply) : option json :=
  match reply with
  | Json resp => body resp !! k
  | Bodyless _ => None
  end.

End GatewayApp.

(** The older copy of the gateway: the same POST and search handlers, no
    check of the environment, no /test-connection; its /health and its
    /search/real-opensearch differ. *)
Module Legacy.
Import Gateway.

Section Handlers.

Variable env : gmap string string.
Variable w : World.

(** GET /health *)
Definition health (req : Request) : Response * list Call :=
  (res_json
     [("status", str "healthy");
      ("message", str "Running on EC2 with VPC OpenSearch access and AWS credentials!");
      ("timestamp", iso w 0);
      ("environment", str "production");
      ("opensearchEndpoint", opt_str (env !! "OPENSEARCH_ENDPOINT"));
      ("firehoseStream", opt_str (env !! "FIREHOSE_DELIVERY_STREAM_NAME"));
      ("hasCredentials", jbool (truthy_opt (env !! "AWS_ACCESS_KEY_ID") &&
                                truthy_opt (env !! "AWS_SECRET_ACCESS_KEY")))],
   []).

Definition real_opensearch_failed (error : Error) : Response :=
  res_status_json 500
    [("success", jbool false);
     ("error", str ("Failed to query real OpenSearch: " +:+ message error));
     ("timestamp", iso w 0)].

(** GET /search/real-opensearch *)
Definition search_real_opensearch (req : Request) : Response * list Call :=
  let indexName := env_or env "OPENSEARCH_INDEX" "mydomain" in
  let size := parseInt_or (req_query req !! "size") 10 in
  let from := parseInt_or (req_query req !! "from") 0 in
  let r := {| index := indexName; query := MatchAll; size := size;
              from := Some from; sort_desc := "@timestamp" |} in
  (match search w r with
   | Returned h =>
       match total_value (total h) with
       | Returned t =>
           res_json (search_fields t h ++
                     [("note", str "Real OpenSearch data successfully retrieved from EC2!");
                      ("endpoint", opt_str (env !! "OPENSEARCH_ENDPOINT"));
                      ("timestamp", iso w 0)])
       | Raised error => real_opensearch_failed error
       end
   | Raised error => real_opensearch_failed error
   end,
   [OsSearch r]).

End Handlers.

End Legacy.

(** ** Observations on query parameters *)

Module QueryObservations.
Import Gateway.

(** A character that can neither start nor continue a number: not white
    space, not a sign, not the [x] of a radix prefix, not a digit of
    radix 16 (so not a decimal digit either).  The comma, the point and
    the letters [g]-[w], [y], [z] are such characters. *)
Definition stops_number (c : ascii) : bool :=
  negb (is_whitespace c) &&
  negb (Ascii.eqb c "-") && negb (Ascii.eqb c "+") &&
  negb (Ascii.eqb c "x") && negb (Ascii.eqb c "X") &&
  match digit_value 16 c with
  | None => true
  | Some _ => false
  end.

End QueryObservations.

(** * Properties *)

(** ** Strings *)

Section StringFacts.

Lemma startsWith_spec s p :
  startsWith s p = true <-> exists t, s = p +:+ t.
Proof.
  revert s; induction p as [|c p IH]; intros s; simpl.
  - split; [intros _; now exists s | reflexivity].
  - destruct s as [|d s].
    + split; [discriminate | intros [t Ht]; discriminate].
    + destruct (Ascii.eqb_spec c d) as [->|Hne].
      * rewrite IH. split; intros [t Ht]; exists t.
        -- now rewrite Ht.
        -- now injection Ht.
      * split; [discriminate | intros [t Ht]; injection Ht; congruence].
Qed.

(** [includes] is the substring relation. *)
Lemma includes_spec s sub :
  includes s sub = true <-> exists a b, s = a +:+ sub +:+ b.
Proof.
  induction s as [|d s IH]; simpl.
  - rewrite orb_false_r, startsWith_spec. split.
    + intros [t Ht]. now exists "", t.
    + intros [a [b H]]. destruct a; [now exists b | discriminate].
  - rewrite orb_true_iff, startsWith_spec, IH. split.
    + intros [[t Ht] | [a [b H]]].
      * now exists "", t.
      * exists (String d a), b. simpl. now rewrite H.
    + intros [a [b H]]. destruct a as [|e a].
      * left. now exists b.
      * right. exists a, b. simpl in H. now injection H.
Qed.

Lemma includes_empty s : includes s "" = true.
Proof. destruct s; reflexivity. Qed.

End StringFacts.

(** ** The diagnostic run *)

Module DiagnoseFacts.
Import Diagnose Scenario.


Lemma failed_app st t1 t2 :
  failed st (t1 ++ t2) = failed st t1 || failed st t2.
Proof. unfold failed. now rewrite existsb_app. Qed.



Lemma runDiagnostics_shape env w : RunShape env w (runDiagnostics env w).
Proof.
  unfold runDiagnostics.
  destruct (env !! "OPENSEARCH_ENDPOINT") as [endpoint|] eqn:He.
  2:{ apply NoEndpoint. now rewrite He. }
  destruct (truthy endpoint) eqn:Ht; simpl.
  2:{ apply NoEndpoint. now rewrite He. }
  destruct (dns_resolve4 w _) as [addresses|message] eqn:Hd.
  - now apply (AllTests env w endpoint addresses).
  - now apply (DnsDown env w endpoint message).
Qed.

Lemma failed_suggestion_lines st m : failed st (suggestion_lines m) = false.
Proof. unfold suggestion_lines. now destruct (suggestion _). Qed.


(** *** The classifier *)

(** C1 (as stated, refuted): a resolver failure for a host whose name
    contains "timeout" carries the DNS marker, and the cascade answers
    [TimedOut], not [DnsFailure]. *)
Lemma classify_dns_marker_shadowed :
  includes "getaddrinfo ENOTFOUND vpc-timeout-test.us-east-1.es.amazonaws.com"
           "ENOTFOUND" = true /\
  classify "getaddrinfo ENOTFOUND vpc-timeout-test.us-east-1.es.amazonaws.com"
    <> DnsFailure.
Proof. split; [reflexivity | discriminate]. Qed.

(** C1 (amended): the cascade runs in the order timeout, 403, DNS marker,
    and the first match wins.  A message containing "timeout" is
    [TimedOut] whatever else it contains; a message containing "403" is
    [AuthorizationFailure] exactly when it does not contain "timeout"; a
    message with the DNS marker is [DnsFailure] exactly when it contains
    neither "timeout" nor "403"; and [Unknown] is returned exactly for the
    messages that match none of the three rules. *)
Theorem classify_rule_order (m : string) :
  (includes m "timeout" = true -> classify m = TimedOut) /\
  (includes m "403" = true ->
     (classify m = AuthorizationFailure <-> includes m "timeout" = false)) /\
  (includes m "ENOTFOUND" = true ->
     (classify m = DnsFailure <->
      includes m "timeout" = false /\ includes m "403" = false)) /\
  (classify m = Unknown <->
     includes m "timeout" = false /\ includes m "403" = false /\
     includes m "ENOTFOUND" = false).
Proof.
  unfold classify.
  destruct (includes m "timeout"), (includes m "403"), (includes m "ENOTFOUND");
    repeat split; intros; try discriminate; try reflexivity;
    repeat match goal with H : _ /\ _ |- _ => destruct H end; discriminate.
Qed.

Lemma classify_rule_order_witness :
  classify "getaddrinfo ENOTFOUND vpc-demo.us-east-1.es.amazonaws.com" = DnsFailure.
Proof.
  apply (proj1 (proj2 (proj2 (classify_rule_order
    "getaddrinfo ENOTFOUND vpc-demo.us-east-1.es.amazonaws.com")))).
  - reflexivity.
  - split; reflexivity.
Defined.

(** *** Blocking and non-blocking stages *)












(** *** The configuration stage *)




(** *** The transport stage *)

(** C5: the probe is one request to the host of the endpoint, on the
    declared port (443 or 80 by scheme when none is declared), with a
    wait of 10,000 ms.  Any response, whatever its status code, makes the
    stage succeed; the stage fails exactly on a timeout or on a request
    error. *)
Theorem transport_probe (w : World) (endpoint : string) :
  let u := url_parse w endpoint in
  let o := request_options u in
  let t := testBasicConnectivity w endpoint in
  head (calls t) = Some (HttpGet (http_module u) o) /\
  opt_hostname o = hostname u /\
  opt_timeout o = 10000 /\
  (forall p, port u = Some p -> truthy p = true -> opt_port o = PortStr p) /\
  (truthy_opt (port u) = false ->
     opt_port o = if bool_decide (protocol u = Some "https:")
                  then PortNum 443 else PortNum 80) /\
  (forall statusCode, http_request w (http_module u) o = Response statusCode ->
     report t = [(Transport, Success)] /\ failed Transport t = false) /\
  (failed Transport t = true <->
     http_request w (http_module u) o = Timeout \/
     exists message, http_request w (http_module u) o = RequestError message).
Proof.
  intros u o t. subst t. unfold testBasicConnectivity. fold u. fold o.
  split; [reflexivity|]. split; [reflexivity|]. split; [reflexivity|].
  split; [|split; [|split]].
  - intros p Hp Ht. subst o. unfold request_options, default_port; simpl.
    now rewrite Hp, Ht.
  - intros Hp. subst o. unfold request_options, default_port; simpl.
    destruct (port u) as [p|]; [simpl in Hp; now rewrite Hp | reflexivity].
  - intros statusCode ->. now split.
  - destruct (http_request w (http_module u) o) as [statusCode| |message]; simpl.
    + split; [discriminate | intros [H | [m H]]; discriminate].
    + split; [now left | reflexivity].
    + split; [right; now exists message | reflexivity].
Qed.

Lemma transport_probe_witness :
  report (testBasicConnectivity (rejecting_world (Response 403)) demo_endpoint) =
    [(Transport, Success)] /\
  failed Transport
    (testBasicConnectivity (rejecting_world (Response 403)) demo_endpoint) = false.
Proof.
  apply (proj1 (proj2 (proj2 (proj2 (proj2 (proj2
    (transport_probe (rejecting_world (Response 403)) demo_endpoint))))))
    403).
  reflexivity.
Defined.

End DiagnoseFacts.

(** ** The gateway *)

Module GatewayFacts.
Import Gateway GatewayScenario GatewayApp.

Lemma lookup_set_prop k k' v (m : gmap string json) :
  set_prop k' v m !! k = if String.eqb k k' then v else m !! k.
Proof.
  unfold set_prop. destruct (String.eqb_spec k k') as [->|Hne], v as [j|].
  - apply lookup_insert_eq.
  - apply lookup_delete_eq.
  - now apply lookup_insert_ne.
  - now apply lookup_delete_ne.
Qed.

(** An object literal is read through its last field of the name. *)
Lemma lookup_js_object base fields k :
  js_object base fields !! k =
  match field_last k fields with
  | Some v => v
  | None => base !! k
  end.
Proof.
  unfold js_object. revert base.
  induction fields as [|[k' v] rest IH]; intros base; simpl; [reflexivity|].
  rewrite IH. destruct (field_last k rest); [reflexivity|].
  rewrite lookup_set_prop. simpl. now destruct (String.eqb k k').
Qed.

(** Reads a field of a response built by [res_json] or
    [res_status_json]. *)
Ltac read_field :=
  unfold troubleshooting, search_failed, real_opensearch_failed,
    real_opensearch_failed_late;
  unfold res_json, res_status_json, obj;
  cbn [body status fst snd];
  rewrite ?lookup_js_object; cbn; rewrite ?lookup_js_object;
  try reflexivity.

(** *** The success flag *)

(** C7 (as stated, refuted): the body of GET /health has no [success]
    property. *)
Lemma health_has_no_success_flag :
  body (handle gateway_env working_world Health (get [])).1 !! "success" = None.
Proof. reflexivity. Qed.

(** What a callback answers, route by route. *)
Lemma handle_success_flag env w route req :
  let resp := (handle env w route req).1 in
  (status resp = 200 \/ status resp = 404 \/ status resp = 500) /\
  (route = Health ->
     status resp = 200 /\ body resp !! "success" = None /\
     body resp !! "status" = Some (JStr "healthy")) /\
  (route <> Health ->
     body resp !! "success" = Some (JBool (bool_decide (status resp = 200)))).
Proof.
  destruct route; cbn [handle]; cbv zeta.
  - split; [now left|]. split; [|congruence]. intros _.
    unfold health. repeat split; read_field.
  - unfold test_connection. destruct (info w); cbn [fst];
      (split; [cbn; tauto|]); (split; [discriminate|]); intros _; read_field.
  - unfold send, put_record. destruct (firehose_send w _); cbn [fst];
      (split; [cbn; tauto|]); (split; [discriminate|]); intros _; read_field.
  - unfold send_pipe_data, put_record. destruct (firehose_send w _); cbn [fst];
      (split; [cbn; tauto|]); (split; [discriminate|]); intros _; read_field.
  - unfold search_all. destruct (search w _) as [h|e]; [destruct (total_value _)|];
      cbn [fst]; (split; [cbn; tauto|]); (split; [discriminate|]); intros _; read_field.
  - unfold search_pipe_data.
    destruct (search w _) as [h|e]; [destruct (total_value _)|];
      cbn [fst]; (split; [cbn; tauto|]); (split; [discriminate|]); intros _; read_field.
  - unfold search_real_opensearch.
    destruct (indices_exists w _) as [[]|e];
      [destruct (search w _) as [h|e]; [destruct (total_value _)|]| |];
      cbn [fst]; (split; [cbn; tauto|]); (split; [discriminate|]); intros _; read_field.
Qed.

(** C7 (amended): every request served by the callback of a route other
    than GET /health receives a body whose [success] property is a
    boolean, [true] exactly when the status is 200 (the path on which
    every awaited call returned) and [false] on every error path (status
    404 or 500); the callback answers for every outcome of the remote
    services.  No other response has a [success] property: GET /health
    answers 200 with [status: 'healthy'], and a request that Express
    answers itself (a body rejected by [express.json()], a path or method
    without a route, a CORS preflight) or a HEAD request receives no JSON
    body of the gateway. *)
Theorem success_flag env w d :
  let reply := (app env w d).1 in
  (forall r req, d = Routed false r req -> r <> Health ->
     (reply_status reply = 200 \/ reply_status reply = 404 \/
      reply_status reply = 500) /\
     reply_prop "success" reply =
       Some (JBool (bool_decide (reply_status reply = 200)))) /\
  (forall req, d = Routed false Health req ->
     reply_status reply = 200 /\ reply_prop "success" reply = None /\
     reply_prop "status" reply = Some (JStr "healthy")) /\
  (forall status, d = Answered status ->
     reply = Bodyless status /\ (app env w d).2 = []) /\
  (is_Some (reply_prop "success" reply) ->
     exists r req, d = Routed false r req /\ r <> Health).
Proof.
  cbv zeta. split; [|split; [|split]].
  - intros r req -> Hr. cbn [app fst reply_status reply_prop].
    destruct (handle_success_flag env w r req) as (Hs & _ & Hf). auto.
  - intros req ->. cbn [app fst reply_status reply_prop].
    destruct (handle_success_flag env w Health req) as (_ & Hh & _). auto.
  - intros status ->. now split.
  - destruct d as [status | [] r req]; cbn [app fst reply_prop].
    + intros [x Hx]. discriminate.
    + intros [x Hx]. discriminate.
    + intros Hsome. exists r, req. split; [reflexivity|]. intros ->.
      destruct (handle_success_flag env w Health req) as (_ & Hh & _).
      destruct (Hh eq_refl) as (_ & Hn & _). cbv zeta in Hn.
      rewrite Hn in Hsome. destruct Hsome as [x Hx]. discriminate.
Qed.

Lemma success_flag_witness :
  reply_prop "success"
    (app gateway_env (failing_world true "timeout of 60000ms exceeded")
       (Routed false SearchAll (get []))).1 = Some (JBool false).
Proof.
  destruct (proj1 (success_flag gateway_env
              (failing_world true "timeout of 60000ms exceeded")
              (Routed false SearchAll (get [])))
            SearchAll (get []) eq_refl) as [_ H].
  - discriminate.
  - exact H.
Defined.

(** *** The troubleshooting flags *)




(** *** The existence check of GET /search/real-opensearch *)

(** C8: when the existence check answers that the index does not exist,
    the handler answers 404 with [success: false] and a suggestion, and
    the existence check is the only call of the request; the existence
    check is always the first call, and a search is issued only when it
    returned [true]. *)
Theorem missing_index_not_searched env w req :
  let indexName := env_or env "OPENSEARCH_INDEX" "mydomain" in
  let r := search_real_opensearch env w req in
  (indices_exists w indexName = Returned false ->
     status r.1 = 404 /\
     body r.1 !! "success" = Some (JBool false) /\
     is_Some (body r.1 !! "suggestion") /\
     r.2 = [OsIndicesExists indexName] /\
     searches r.2 = []) /\
  head r.2 = Some (OsIndicesExists indexName) /\
  (searches r.2 <> [] -> indices_exists w indexName = Returned true).
Proof.
  cbv zeta. unfold search_real_opensearch.
  destruct (indices_exists w _) as [[]|e]; cbn [fst snd].
  - split; [discriminate|]. split; reflexivity.
  - split; [|split; [reflexivity | intros H; now contradiction H]].
    intros _. repeat split; read_field. now eexists.
  - split; [discriminate|]. split; [reflexivity | intros H; now contradiction H].
Qed.

Lemma missing_index_not_searched_witness :
  status (search_real_opensearch gateway_env (failing_world false "") (get [])).1 = 404 /\
  body (search_real_opensearch gateway_env (failing_world false "") (get [])).1
    !! "success" = Some (JBool false) /\
  is_Some (body (search_real_opensearch gateway_env (failing_world false "") (get [])).1
    !! "suggestion") /\
  (search_real_opensearch gateway_env (failing_world false "") (get [])).2 =
    [OsIndicesExists "mydomain"] /\
  searches (search_real_opensearch gateway_env (failing_world false "") (get [])).2 = [].
Proof.
  apply (proj1 (missing_index_not_searched gateway_env (failing_world false "") (get []))).
  reflexivity.
Defined.

(** *** Query parameters *)

Lemma digit_value_non_decimal c :
  is_decimal_digit c = false -> digit_value 10 c = None.
Proof.
  unfold is_decimal_digit, digit_value.
  set (n := Z.of_nat (nat_of_ascii c)).
  destruct (48 <=? n) eqn:H1, (n <=? 57) eqn:H2; try discriminate; intros _; simpl;
    destruct (97 <=? n) eqn:H3, (n <=? 122) eqn:H4,
             (65 <=? n) eqn:H5, (n <=? 90) eqn:H6; simpl; try reflexivity;
    match goal with |- context [?a <? 10] => destruct (Z.ltb_spec a 10) end;
    try reflexivity; lia.
Qed.

Lemma strip_radix_prefix_non_decimal c s :
  is_decimal_digit c = false ->
  strip_radix_prefix (String c s) = (10, String c s).
Proof.
  intros Hc. unfold strip_radix_prefix. destruct s as [|d s]; [reflexivity|].
  destruct (Ascii.eqb_spec c "0") as [->|_]; [discriminate | reflexivity].
Qed.

(** A string that is not numeric is parsed as [NaN]. *)
Lemma parseInt_non_numeric s :
  non_numeric s = true -> parseInt_string s = None.
Proof.
  unfold non_numeric, parseInt_string.
  destruct (strip_sign (trim_start s)) as [sign [|c rest]]; cbn [snd].
  - reflexivity.
  - intros Hc. apply negb_true_iff in Hc.
    rewrite strip_radix_prefix_non_decimal by assumption.
    cbn [parse_digits]. now rewrite digit_value_non_decimal.
Qed.

Lemma parseInt_absent : parseInt None = None.
Proof. reflexivity. Qed.

Lemma parseInt_or_defaulted v d : defaulted v -> parseInt_or v d = d.
Proof.
  unfold parseInt_or.
  intros [-> | [[s [-> Hs]] | [-> | ->]]]; try reflexivity.
  cbn. now rewrite parseInt_non_numeric.
Qed.

(** C9: in the query a search route sends, [size] is 10 when the [size]
    parameter is absent, not numeric or parsed as 0 (and the parsed value
    otherwise).  When the [from] parameter is absent, not numeric or
    parsed as 0, the [from] of the query is 0; GET /search/pipe-data, which
    has no [from] parameter, is the one route that sends a query without
    [from].  Otherwise [from] is the parsed value. *)
Theorem query_defaults env w route req r :
  In r (searches (handle env w route req).2) ->
  (defaulted (req_query req !! "size") -> size r = 10) /\
  (forall n, parseInt (req_query req !! "size") = Some n -> n <> 0 -> size r = n) /\
  (defaulted (req_query req !! "from") ->
     match from r with
     | Some n => n = 0
     | None => route = SearchPipeData
     end) /\
  (route <> SearchPipeData ->
     (defaulted (req_query req !! "from") -> from r = Some 0) /\
     (forall n, parseInt (req_query req !! "from") = Some n -> n <> 0 ->
        from r = Some n)).
Proof.
  assert (Hn : forall v d n, parseInt v = Some n -> n <> 0 -> parseInt_or v d = n).
  { intros v d n Hv Hz. unfold parseInt_or. rewrite Hv.
    destruct (Z.eqb_spec n 0); [contradiction | reflexivity]. }
  destruct route; cbn [handle];
    unfold health, test_connection, send, send_pipe_data, put_record,
      search_all, search_pipe_data, search_real_opensearch;
    try destruct (indices_exists w _) as [[]|e]; cbn [fst snd searches omap];
    cbn; try tauto; intros [<- | []]; cbn [size from];
    repeat split; try congruence;
    eauto using parseInt_or_defaulted; try (intros; f_equal);
    eauto using parseInt_or_defaulted.
Qed.

Lemma query_defaults_witness :
  exists r,
    In r (searches (handle gateway_env working_world SearchAll
                      (get [("size", QString "ten"); ("from", QString "0")])).2) /\
    size r = 10.
Proof.
  eexists. split; [left; reflexivity|].
  refine (proj1 (query_defaults gateway_env working_world SearchAll
                   (get [("size", QString "ten"); ("from", QString "0")]) _ _) _).
  - left. reflexivity.
  - right. left. exists "ten". split; reflexivity.
Defined.

(** *** The record put on the delivery stream *)

Lemma make_record_timestamp w data :
  make_record w data !! "timestamp" = iso w 0.
Proof. unfold make_record. now rewrite lookup_js_object. Qed.

Lemma make_record_at_timestamp w data :
  make_record w data !! "@timestamp" = iso w 1.
Proof. unfold make_record. now rewrite lookup_js_object. Qed.

(** Every other property is that of the data. *)
Lemma make_record_other w data k :
  k <> "timestamp" -> k <> "@timestamp" ->
  make_record w data !! k = spread data !! k.
Proof.
  intros H1 H2. unfold make_record. rewrite lookup_js_object. cbn.
  destruct (String.eqb_spec k "@timestamp"); [contradiction|].
  destruct (String.eqb_spec k "timestamp"); [contradiction|].
  reflexivity.
Qed.

(** A falsy body has no property to pass on. *)
Lemma spread_falsy b : truthy_val b = false -> spread b = ∅.
Proof.
  destruct b as [[| [] | n | [|c s] | l | m]|]; try discriminate; try reflexivity.
Qed.

(** C10: POST /send and POST /send-pipe-data put exactly one record on
    the delivery stream; its [timestamp] and ['@timestamp'] are the
    server's clock readings, whatever the request body gives under these
    names, and every other field of the request body is in the record
    with its value unchanged: when the body is the object [m], the
    record and [m] have the same value, or none, under every other name.
    For POST /send the record has no other field whatever the body. *)
Theorem record_timestamps env w route req :
  route = Send \/ route = SendPipeData ->
  exists record,
    records (handle env w route req).2 = [record] /\
    record !! "timestamp" = Some (JStr (toISOString w (date_now w 0))) /\
    record !! "@timestamp" = Some (JStr (toISOString w (date_now w 1))) /\
    (forall m, req_body req = Some (JObj m) ->
       forall k, k <> "timestamp" -> k <> "@timestamp" -> record !! k = m !! k) /\
    (forall k v, k <> "timestamp" -> k <> "@timestamp" ->
       spread (req_body req) !! k = Some v -> record !! k = Some v) /\
    (route = Send ->
       forall k, k <> "timestamp" -> k <> "@timestamp" ->
         record !! k = spread (req_body req) !! k).
Proof.
  intros [-> | ->]; cbn [handle]; unfold send, send_pipe_data, put_record;
    cbn [snd records omap Data]; eexists; (split; [reflexivity|]);
    cbn [Data]; rewrite make_record_timestamp, make_record_at_timestamp;
    (split; [reflexivity|]); (split; [reflexivity|]); split; [|split| |split].
  - intros m Hb k H1 H2. rewrite make_record_other by assumption.
    now rewrite Hb.
  - intros k v H1 H2 Hk. now rewrite make_record_other.
  - intros _ k H1 H2. now apply make_record_other.
  - intros m Hb k H1 H2. rewrite make_record_other by assumption.
    now rewrite Hb.
  - intros k v H1 H2 Hk. rewrite make_record_other by assumption.
    unfold js_or. destruct (truthy_val (req_body req)) eqn:Hb; [assumption|].
    rewrite (spread_falsy _ Hb) in Hk. now rewrite lookup_empty in Hk.
  - discriminate.
Qed.

Lemma record_timestamps_witness :
  exists record,
    records (handle gateway_env working_world Send
               (post (Some (JObj (<["timestamp" := JStr "1970-01-01T00:00:00.000Z"]>
                                  (<["pipe-20" := JNum 5]> ∅)))))).2 = [record] /\
    record !! "timestamp" = Some (JStr "2023-11-14T22:13:20.000Z") /\
    record !! "pipe-20" = Some (JNum 5).
Proof.
  destruct (record_timestamps gateway_env working_world Send
              (post (Some (JObj (<["timestamp" := JStr "1970-01-01T00:00:00.000Z"]>
                                 (<["pipe-20" := JNum 5]> ∅))))))
    as [record [Hr [Ht [_ [Hm _]]]]].
  - left. reflexivity.
  - exists record. split; [exact Hr|]. split; [exact Ht|].
    rewrite (Hm _ eq_refl "pipe-20"); [reflexivity | discriminate | discriminate].
Defined.

End GatewayFacts.

(** ** More on the diagnostic run *)

Module DiagnoseMore.
Import Diagnose Scenario DiagnoseObservations DiagnoseFacts.

(** None of the three tests prints the failure line of the resolver. *)
Lemma tests_no_dns_failure env w endpoint :
  failed Dns
    (testBasicConnectivity w endpoint ++
     fst (testOpenSearchClient env w) ++ testIndexExists env w) = false.
Proof.
  rewrite !failed_app.
  unfold testBasicConnectivity, testOpenSearchClient, testIndexExists.
  destruct (http_request w _ _), (client_info w _), (indices_exists w _ _) as [[]|];
    try destruct (indices_stats w _ _); simpl;
    rewrite ?failed_suggestion_lines; reflexivity.
Qed.

(** The calls of the three tests, in the order they are made. *)
Lemma tests_calls env w endpoint :
  let u := url_parse w endpoint in
  let cfg := client_config env in
  let indexName := env_or env "OPENSEARCH_INDEX" "mydomain" in
  calls (testBasicConnectivity w endpoint ++
         fst (testOpenSearchClient env w) ++ testIndexExists env w) =
  (HttpGet (http_module u) (request_options u) ::
   match http_request w (http_module u) (request_options u) with
   | Timeout => [ReqDestroy]
   | _ => []
   end ++
   OsInfo cfg :: OsIndicesExists cfg indexName ::
   match indices_exists w cfg indexName with
   | Returned true => [OsIndicesStats cfg indexName]
   | _ => []
   end)%list.
Proof.
  cbv zeta. unfold calls. rewrite !omap_app.
  unfold testBasicConnectivity, testOpenSearchClient, testIndexExists, suggestion_lines.
  destruct (http_request w _ _), (client_info w _) as [i|m],
    (indices_exists w _ _) as [[]|];
    try destruct (indices_stats w _ _);
    try destruct (suggestion (classify m)); reflexivity.
Qed.

(** X1: a failed resolution is blocking.  In every run in which the DNS
    stage fails, the resolver call is the only call of the run: the
    probe, the handshake and the existence check are not made. *)
Theorem dns_failure_blocking env w :
  failed Dns (runDiagnostics env w) = true ->
  (exists host, calls (runDiagnostics env w) = [DnsResolve4 host]) /\
  executed Transport (runDiagnostics env w) = false /\
  executed Handshake (runDiagnostics env w) = false /\
  executed Resource (runDiagnostics env w) = false.
Proof.
  destruct (runDiagnostics_shape env w) as [He | endpoint message He Ht Hd
                                            | endpoint addresses He Ht Hd].
  - discriminate.
  - intros _. split; [eexists; reflexivity | repeat split].
  - rewrite failed_app, tests_no_dns_failure. discriminate.
Qed.

Lemma dns_failure_blocking_witness :
  executed Transport (runDiagnostics full_env unresolved_world) = false /\
  executed Handshake (runDiagnostics full_env unresolved_world) = false /\
  executed Resource (runDiagnostics full_env unresolved_world) = false.
Proof.
  apply (dns_failure_blocking full_env unresolved_world). reflexivity.
Defined.

(** X2: the calls of a run are made in stage order: the ranks of the
    stages of the successive calls never decrease. *)
Theorem calls_in_stage_order env w :
  Sorted le (map (fun c => stage_rank (stage_of_call c)) (calls (runDiagnostics env w))).
Proof.
  destruct (runDiagnostics_shape env w) as [He | endpoint message He Ht Hd
                                            | endpoint addresses He Ht Hd].
  - constructor.
  - repeat constructor.
  - unfold calls. rewrite omap_app. fold (calls (testBasicConnectivity w endpoint ++
      (testOpenSearchClient env w).1 ++ testIndexExists env w)).
    rewrite tests_calls. cbn [omap app].
    destruct (http_request w _ _), (indices_exists w _ _) as [[]|];
      cbn; repeat constructor.
Qed.

(** X3: no retries: no call is made twice in a run, and a run makes at
    most six calls. *)
Theorem no_call_repeated env w :
  NoDup (calls (runDiagnostics env w)) /\
  (length (calls (runDiagnostics env w)) <= 6)%nat.
Proof.
  destruct (runDiagnostics_shape env w) as [He | endpoint message He Ht Hd
                                            | endpoint addresses He Ht Hd].
  - split; [constructor | cbn; lia].
  - split; [cbn; apply NoDup_singleton | cbn; lia].
  - unfold calls. rewrite omap_app. fold (calls (testBasicConnectivity w endpoint ++
      (testOpenSearchClient env w).1 ++ testIndexExists env w)).
    rewrite tests_calls. cbn [omap app].
    destruct (http_request w _ _), (indices_exists w _ _) as [[]|];
      cbn; (split; [|lia]);
      repeat (apply NoDup_cons; split;
                [rewrite ?elem_of_cons, elem_of_nil; intuition discriminate|]);
      apply NoDup_nil_2.
Qed.



(** X5: the index test asks for the statistics of the index exactly when
    the existence check returned [true]; a missing index is not a
    failure: it is reported with the suggestion to create it.  The index
    is the one of OPENSEARCH_INDEX, or "mydomain" when the variable is
    unset or empty. *)
Theorem stats_only_for_existing_index env w :
  let cfg := client_config env in
  let indexName := env_or env "OPENSEARCH_INDEX" "mydomain" in
  head (calls (testIndexExists env w)) = Some (OsIndicesExists cfg indexName) /\
  (In (OsIndicesStats cfg indexName) (calls (testIndexExists env w)) <->
     indices_exists w cfg indexName = Returned true) /\
  (indices_exists w cfg indexName = Returned false ->
     failed Resource (testIndexExists env w) = false /\
     In (Out (IndexMissing indexName)) (testIndexExists env w) /\
     In (Out (Suggestion "Create the index or check OPENSEARCH_INDEX variable"))
        (testIndexExists env w)) /\
  (truthy_opt (env !! "OPENSEARCH_INDEX") = false -> indexName = "mydomain").
Proof.
  cbv zeta. unfold testIndexExists.
  split; [reflexivity|]. split; [|split].
  - destruct (indices_exists w _ _) as [[]|m]; cbn.
    + destruct (indices_stats w _ _); cbn; split; auto.
    + split; [intros [H|[]]; discriminate | discriminate].
    + split; [intros [H|[]]; discriminate | discriminate].
  - intros ->. cbn. repeat split; auto.
  - unfold env_or. destruct (env !! "OPENSEARCH_INDEX") as [s|]; cbn; [|reflexivity].
    now intros ->.
Qed.

Lemma stats_only_for_existing_index_witness :
  failed Resource (testIndexExists full_env (healthy_world false)) = false /\
  In (Out (IndexMissing "mydomain")) (testIndexExists full_env (healthy_world false)) /\
  In (Out (Suggestion "Create the index or check OPENSEARCH_INDEX variable"))
     (testIndexExists full_env (healthy_world false)).
Proof.
  apply (proj1 (proj2 (proj2 (stats_only_for_existing_index full_env (healthy_world false))))).
  reflexivity.
Defined.

End DiagnoseMore.

(** ** list-indices.js *)

Module ListIndicesFacts.
Import Diagnose ListIndices.

Lemma calls_out l t : calls (Out l :: t) = calls t.
Proof. reflexivity. Qed.

Lemma calls_do c t : calls (Do c :: t) = c :: calls t.
Proof. reflexivity. Qed.

Lemma calls_app t1 t2 : calls (t1 ++ t2) = (calls t1 ++ calls t2)%list.
Proof. apply omap_app. Qed.




(** The listing makes no call and prints its own lines only. *)
Lemma calls_listing body : calls (listing body) = [].
Proof.
  unfold listing. destruct body as [[|i l]|]; try reflexivity.
  generalize (i :: l). intros l'. induction l' as [|x l' IH]; [reflexivity|].
  cbn [map]. now rewrite calls_out.
Qed.



Lemma calls_error_lines m : calls (error_lines m) = [].
Proof.
  unfold error_lines. destruct (includes m "timeout"), (includes m "403"); reflexivity.
Qed.




(** X6: the script lists the indices first and asks for the cluster
    information only when the listing returned: the calls are the
    listing alone when it raised, the listing followed by [info]
    otherwise.  Both use a client that waits 60 seconds. *)
Theorem info_after_listing env w :
  let cfg := client_config env in
  requestTimeout cfg = 60000 /\
  calls (listIndices env w) =
    match cat_indices w cfg with
    | Returned _ => [CatIndices cfg; Info cfg]
    | Raised _ => [CatIndices cfg]
    end.
Proof.
  cbv zeta. split; [reflexivity|]. unfold listIndices. cbv zeta.
  rewrite !calls_out, calls_do.
  destruct (cat_indices w _) as [body|m].
  - rewrite calls_out, calls_app, calls_listing, calls_do. cbn [app].
    destruct (client_info w _) as [i|m]; [reflexivity|].
    now rewrite calls_error_lines.
  - now rewrite calls_error_lines.
Qed.

(** X7: the hints of the catch block follow the cascade of diagnose.js
    for its first two rules and have no third one: the network hints are
    printed exactly for the messages [classify] calls [TimedOut], the
    permission hints exactly for those it calls [AuthorizationFailure],
    and a message it calls [DnsFailure] or [Unknown] gets the error line
    alone. *)
Theorem hints_follow_classify (m : string) :
  (In (Out NetworkHints) (error_lines m) <-> classify m = TimedOut) /\
  (In (Out PermissionHints) (error_lines m) <-> classify m = AuthorizationFailure) /\
  (classify m = DnsFailure \/ classify m = Unknown ->
     error_lines m = [Out (ErrorLine m)]).
Proof.
  unfold error_lines, classify.
  destruct (includes m "timeout"), (includes m "403"), (includes m "ENOTFOUND");
    cbn; repeat split; intros; try discriminate; try reflexivity; auto;
    repeat match goal with
           | H : _ \/ _ |- _ => destruct H
           | H : False |- _ => destruct H
           end; try discriminate.
Qed.

Lemma hints_follow_classify_witness :
  error_lines "getaddrinfo ENOTFOUND vpc-demo.us-east-1.es.amazonaws.com" =
    [Out (ErrorLine "getaddrinfo ENOTFOUND vpc-demo.us-east-1.es.amazonaws.com")].
Proof.
  apply (proj2 (proj2 (hints_follow_classify
           "getaddrinfo ENOTFOUND vpc-demo.us-east-1.es.amazonaws.com"))).
  left. reflexivity.
Defined.



End ListIndicesFacts.

(** ** More on the gateway *)

Module GatewayMore.
Import Gateway GatewayScenario GatewayStartup QueryObservations GatewayApp GatewayFacts.

(** The gateway listens exactly when the four required variables are set
    and not empty. *)
Lemma listens_spec env :
  listens env = true <->
  truthy_opt (env !! "OPENSEARCH_ENDPOINT") = true /\
  truthy_opt (env !! "AWS_ACCESS_KEY_ID") = true /\
  truthy_opt (env !! "AWS_SECRET_ACCESS_KEY") = true /\
  truthy_opt (env !! "FIREHOSE_DELIVERY_STREAM_NAME") = true.
Proof.
  unfold listens, missingEnvVars, requiredEnvVars. cbn [List.filter].
  destruct (truthy_opt (env !! "OPENSEARCH_ENDPOINT")),
           (truthy_opt (env !! "AWS_ACCESS_KEY_ID")),
           (truthy_opt (env !! "AWS_SECRET_ACCESS_KEY")),
           (truthy_opt (env !! "FIREHOSE_DELIVERY_STREAM_NAME")); cbn;
    intuition discriminate.
Qed.

Lemma truthy_opt_Some o :
  truthy_opt o = true -> exists s, o = Some s /\ truthy s = true.
Proof. destruct o as [s|]; [intros H; now exists s | discriminate]. Qed.

(** X9: a gateway that passed the check of its environment reports, on
    GET /health, [hasCredentials: true] and the endpoint and the stream
    it was started with. *)
Theorem listening_health env w req :
  listens env = true ->
  exists e s,
    env !! "OPENSEARCH_ENDPOINT" = Some e /\
    env !! "FIREHOSE_DELIVERY_STREAM_NAME" = Some s /\
    truthy e = true /\ truthy s = true /\
    body (health env w req).1 !! "hasCredentials" = Some (JBool true) /\
    body (health env w req).1 !! "opensearchEndpoint" = Some (JStr e) /\
    body (health env w req).1 !! "firehoseStream" = Some (JStr s).
Proof.
  intros H. apply listens_spec in H as (He & Hk & Hs & Hf).
  destruct (truthy_opt_Some _ He) as [e [Ee Te]].
  destruct (truthy_opt_Some _ Hf) as [s [Es Ts]].
  exists e, s. repeat split; try assumption; unfold health; read_field.
  - now rewrite Hk, Hs.
  - now rewrite Ee.
  - now rewrite Es.
Qed.

Lemma listening_health_witness :
  exists e s,
    gateway_env !! "OPENSEARCH_ENDPOINT" = Some e /\
    gateway_env !! "FIREHOSE_DELIVERY_STREAM_NAME" = Some s /\
    truthy e = true /\ truthy s = true /\
    body (health gateway_env working_world (get [])).1 !! "hasCredentials" =
      Some (JBool true) /\
    body (health gateway_env working_world (get [])).1 !! "opensearchEndpoint" =
      Some (JStr e) /\
    body (health gateway_env working_world (get [])).1 !! "firehoseStream" =
      Some (JStr s).
Proof.
  apply (listening_health gateway_env working_world (get [])). reflexivity.
Defined.

(** X10: in a gateway that passed the check of its environment, every
    record is put on the stream named by FIREHOSE_DELIVERY_STREAM_NAME,
    and this name is not empty. *)
Theorem listening_stream_name env w route req p :
  listens env = true ->
  In (FirehosePutRecord p) (handle env w route req).2 ->
  exists s, DeliveryStreamName p = Some s /\ truthy s = true /\
            env !! "FIREHOSE_DELIVERY_STREAM_NAME" = Some s.
Proof.
  intros H Hin. apply listens_spec in H as (_ & _ & _ & Hf).
  destruct (truthy_opt_Some _ Hf) as [s [Es Ts]].
  exists s.
  destruct route; cbn [handle] in Hin;
    unfold health, test_connection, send, send_pipe_data, put_record,
      search_all, search_pipe_data, search_real_opensearch in Hin;
    try destruct (indices_exists w _) as [[]|e]; cbn [snd] in Hin;
    cbn in Hin; intuition try discriminate;
    match goal with H : FirehosePutRecord _ = FirehosePutRecord _ |- _ =>
      injection H as <- end; cbn; auto.
Qed.

Lemma listening_stream_name_witness :
  exists s,
    DeliveryStreamName
      {| DeliveryStreamName := gateway_env !! "FIREHOSE_DELIVERY_STREAM_NAME";
         Data := make_record working_world None |} = Some s /\
    truthy s = true /\
    gateway_env !! "FIREHOSE_DELIVERY_STREAM_NAME" = Some s.
Proof.
  apply (listening_stream_name gateway_env working_world Send (post None)).
  - reflexivity.
  - left. reflexivity.
Defined.

(** X11: what each route calls.  GET /health calls nothing; GET
    /test-connection makes the one [info] call; the two POST routes put
    exactly one record and call the search cluster never; the search
    routes call the search cluster only, put no record, and issue at most
    one search. *)
Theorem calls_of_route env w route req :
  let t := (handle env w route req).2 in
  (route = Health -> t = []) /\
  (route = TestConnection -> t = [OsInfo]) /\
  (is_send_route route = true ->
     (exists p, t = [FirehosePutRecord p]) /\ searches t = []) /\
  (is_search_route route = true ->
     Forall (fun c => service_of_call c = OpenSearch) t /\
     records t = [] /\ (length (searches t) <= 1)%nat /\ (length t <= 2)%nat).
Proof.
  cbv zeta.
  destruct route; cbn [handle is_send_route is_search_route];
    unfold health, test_connection, send, send_pipe_data, put_record,
      search_all, search_pipe_data, search_real_opensearch;
    try destruct (indices_exists w _) as [[]|e]; cbn [snd];
    repeat split; try discriminate; try (eexists; reflexivity);
    try (repeat constructor); cbn; lia.
Qed.

Lemma calls_of_route_witness :
  (exists p, (handle gateway_env working_world SendPipeData (post None)).2 =
             [FirehosePutRecord p]) /\
  searches (handle gateway_env working_world SendPipeData (post None)).2 = [].
Proof.
  apply (proj1 (proj2 (proj2
    (calls_of_route gateway_env working_world SendPipeData (post None))))).
  reflexivity.
Defined.

(** Among the callbacks, one answers 404, in one case. *)
Lemma handle_not_found env w route req :
  status (handle env w route req).1 = 404 <->
  route = SearchRealOpensearch /\
  indices_exists w (env_or env "OPENSEARCH_INDEX" "mydomain") = Returned false.
Proof.
  destruct route; cbn [handle];
    unfold health, test_connection, send, send_pipe_data, put_record,
      search_all, search_pipe_data, search_real_opensearch;
    try destruct (info w); try destruct (firehose_send w _);
    try destruct (indices_exists w _) as [[]|e];
    try (destruct (search w _) as [h|e']; [destruct (total_value _)|]);
    cbn; intuition (try discriminate; try congruence).
Qed.

(** X12: the code of the gateway writes a 404 in one case only: the
    callback of GET /search/real-opensearch, when the existence check
    returned [false].  Every other 404 a client receives is the answer
    of Express to a request that no callback served. *)
Theorem not_found_only_for_missing_index env w d :
  (reply_status (app env w d).1 = 404 <->
     d = Answered 404 \/
     exists head req,
       d = Routed head SearchRealOpensearch req /\
       indices_exists w (env_or env "OPENSEARCH_INDEX" "mydomain") = Returned false) /\
  ((exists resp, (app env w d).1 = Json resp /\ status resp = 404) <->
     exists req,
       d = Routed false SearchRealOpensearch req /\
       indices_exists w (env_or env "OPENSEARCH_INDEX" "mydomain") = Returned false).
Proof.
  split.
  - destruct d as [status | head r req]; cbn [app fst reply_status].
    + split.
      * intros ->. now left.
      * intros [[= ->] | (h & q & Hd & _)]; [reflexivity | discriminate].
    + assert (Hs : reply_status (if head then Bodyless (status (handle env w r req).1)
                                 else Json (handle env w r req).1) =
                   status (handle env w r req).1) by now destruct head.
      rewrite Hs, handle_not_found. split.
      * intros [-> Hx]. right. now exists head, req.
      * intros [H | (h & q & [= _ -> _] & Hx)]; [discriminate | now split].
  - destruct d as [status | [] r req]; cbn [app fst].
    + split; [intros (resp & H & _) | intros (q & H & _)]; discriminate.
    + split; [intros (resp & H & _) | intros (q & H & _)]; discriminate.
    + split.
      * intros (resp & [= <-] & H4). apply handle_not_found in H4 as [-> Hx].
        now exists req.
      * intros (q & [= -> _] & Hx). eexists. split; [reflexivity|].
        apply handle_not_found. now split.
Qed.

Lemma not_found_only_for_missing_index_witness :
  reply_status (app gateway_env (failing_world false "")
                  (Routed false SearchRealOpensearch (get []))).1 = 404.
Proof.
  apply (proj2 (proj1 (not_found_only_for_missing_index gateway_env
                         (failing_world false "")
                         (Routed false SearchRealOpensearch (get []))))).
  right. exists false, (get []). split; reflexivity.
Defined.

(** *** The records and the responses of the POST routes *)

(** X13: with no body, or a falsy one, POST /send-pipe-data puts the
    record [{ "pipe-20": 112 }] with the two timestamps, and POST /send
    puts a record of the two timestamps alone. *)
Theorem records_of_empty_body env w req :
  truthy_val (req_body req) = false ->
  records (send_pipe_data env w req).2 =
    [<["@timestamp" := JStr (toISOString w (date_now w 1))]>
     (<["timestamp" := JStr (toISOString w (date_now w 0))]>
     (<["pipe-20" := JNum 112]> ∅))] /\
  records (send env w req).2 =
    [<["@timestamp" := JStr (toISOString w (date_now w 1))]>
     (<["timestamp" := JStr (toISOString w (date_now w 0))]> ∅)].
Proof.
  intros Hb. unfold send_pipe_data, send, put_record, js_or. rewrite Hb.
  cbn [snd records omap Data]. unfold records. cbn [omap Data].
  unfold make_record. rewrite (spread_falsy _ Hb). split; reflexivity.
Qed.

Lemma records_of_empty_body_witness :
  records (send_pipe_data gateway_env working_world (post None)).2 =
    [<["@timestamp" := JStr "2023-11-14T22:13:20.000Z"]>
     (<["timestamp" := JStr "2023-11-14T22:13:20.000Z"]>
     (<["pipe-20" := JNum 112]> ∅))].
Proof.
  apply (proj1 (records_of_empty_body gateway_env working_world (post None) eq_refl)).
Defined.

(** Records of data that agree outside the two timestamps are equal. *)
Lemma make_record_ext w d1 d2 :
  (forall k, k <> "timestamp" -> k <> "@timestamp" ->
     spread d1 !! k = spread d2 !! k) ->
  make_record w d1 = make_record w d2.
Proof.
  intros H. apply map_eq. intros k.
  destruct (decide (k = "timestamp")) as [->|H1];
    [now rewrite !make_record_timestamp|].
  destruct (decide (k = "@timestamp")) as [->|H2];
    [now rewrite !make_record_at_timestamp|].
  rewrite !make_record_other by assumption. now apply H.
Qed.

(** X14: the record does not depend on what the client sends as
    [timestamp] and ['@timestamp']: two requests to POST /send whose
    bodies have the same other fields put the same record, and so do
    two requests to POST /send-pipe-data when both bodies are truthy. *)
Theorem record_ignores_client_timestamps env w route req1 req2 :
  (forall k, k <> "timestamp" -> k <> "@timestamp" ->
     spread (req_body req1) !! k = spread (req_body req2) !! k) ->
  route = Send \/
  (route = SendPipeData /\ truthy_val (req_body req1) = true /\
   truthy_val (req_body req2) = true) ->
  records (handle env w route req1).2 = records (handle env w route req2).2.
Proof.
  intros H [-> | (-> & T1 & T2)]; cbn [handle];
    unfold send, send_pipe_data, put_record, js_or; rewrite ?T1, ?T2;
    unfold records; cbn [snd omap Data]; now rewrite (make_record_ext w _ _ H).
Qed.

Lemma record_ignores_client_timestamps_witness :
  records (handle gateway_env working_world Send
             (post (obj [("timestamp", str "1970-01-01T00:00:00.000Z");
                          ("pipe-20", Some (JNum 5))]))).2 =
  records (handle gateway_env working_world Send
             (post (obj [("pipe-20", Some (JNum 5))]))).2.
Proof.
  apply (record_ignores_client_timestamps gateway_env working_world Send).
  - intros k H1 H2. cbn [post req_body obj spread].
    rewrite !lookup_js_object. cbn.
    destruct (String.eqb_spec k "timestamp"); [contradiction|].
    destruct (String.eqb k "pipe-20"); reflexivity.
  - left. reflexivity.
Defined.

(** X15: the response of POST /send.  When the stream accepts the
    record, the answer is 200 with the [RecordId] and with [data] equal
    to the body as it was received (the client's own [timestamp]
    included, not the stamped record); when the put raises, the answer is
    500 with the message of the error and neither [data] nor
    [recordId]. *)
Theorem send_response env w req p :
  (send env w req).2 = [FirehosePutRecord p] ->
  (forall recordId, firehose_send w p = Returned recordId ->
     status (send env w req).1 = 200 /\
     body (send env w req).1 !! "recordId" = recordId /\
     body (send env w req).1 !! "data" = req_body req) /\
  (forall error, firehose_send w p = Raised error ->
     status (send env w req).1 = 500 /\
     body (send env w req).1 !! "error" = Some (JStr (message error)) /\
     body (send env w req).1 !! "data" = None /\
     body (send env w req).1 !! "recordId" = None).
Proof.
  unfold send, put_record. cbn [snd fst]. intros [= <-].
  split; intros x ->; repeat split; read_field.
Qed.

Lemma send_response_witness :
  status (send gateway_env working_world
            (post (obj [("timestamp", str "1970-01-01T00:00:00.000Z")]))).1 = 200 /\
  body (send gateway_env working_world
          (post (obj [("timestamp", str "1970-01-01T00:00:00.000Z")]))).1
    !! "recordId" = str "rec-1" /\
  body (send gateway_env working_world
          (post (obj [("timestamp", str "1970-01-01T00:00:00.000Z")]))).1
    !! "data" = obj [("timestamp", str "1970-01-01T00:00:00.000Z")].
Proof.
  apply (proj1 (send_response gateway_env working_world
                  (post (obj [("timestamp", str "1970-01-01T00:00:00.000Z")]))
                  _ eq_refl)).
  reflexivity.
Defined.

(** *** The responses of the search routes *)

(** How a search route answers, by the outcome of its search. *)
Lemma search_route_response env w route req r :
  In r (searches (handle env w route req).2) ->
  match search w r with
  | Returned h =>
      match total_value (total h) with
      | Returned t =>
          status (handle env w route req).1 = 200 /\
          body (handle env w route req).1 !! "success" = Some (JBool true) /\
          body (handle env w route req).1 !! "total" = t /\
          body (handle env w route req).1 !! "count" =
            Some (JNum (Z.of_nat (length (hits h)))) /\
          body (handle env w route req).1 !! "data" =
            Some (JArr (map hit_json (hits h)))
      | Raised e =>
          status (handle env w route req).1 = 500 /\
          body (handle env w route req).1 !! "success" = Some (JBool false)
      end
  | Raised e =>
      status (handle env w route req).1 = 500 /\
      body (handle env w route req).1 !! "success" = Some (JBool false)
  end.
Proof.
  destruct route; cbn [handle];
    unfold health, test_connection, send, send_pipe_data, put_record,
      search_all, search_pipe_data, search_real_opensearch;
    try destruct (indices_exists w _) as [[]|e]; cbn [snd fst searches omap];
    cbn; try tauto; intros [<- | []];
    (destruct (search w _) as [h|e']; [destruct (total_value _) as [t|e']|]);
    repeat split; read_field.
Qed.

(** An entry of [data] holds the id, the source and the score of its
    hit under [id], [source] and [score], and nothing else. *)
Lemma hit_json_entry hit :
  exists m, hit_json hit = JObj m /\
    m !! "id" = hit_id hit /\ m !! "source" = hit_source hit /\
    m !! "score" = hit_score hit /\
    forall k, k <> "id" -> k <> "source" -> k <> "score" -> m !! k = None.
Proof.
  unfold hit_json. eexists. split; [reflexivity|].
  repeat split; try (now rewrite lookup_js_object).
  intros k H1 H2 H3. rewrite lookup_js_object. cbn.
  destruct (String.eqb_spec k "score"); [contradiction|].
  destruct (String.eqb_spec k "source"); [contradiction|].
  destruct (String.eqb_spec k "id"); [contradiction|].
  apply lookup_empty.
Qed.

Lemma hit_json_entries (l : list Hit) :
  Forall2 (fun hit entry =>
             exists m, entry = JObj m /\
               m !! "id" = hit_id hit /\ m !! "source" = hit_source hit /\
               m !! "score" = hit_score hit /\
               forall k, k <> "id" -> k <> "source" -> k <> "score" ->
                         m !! k = None)
          l (map hit_json l).
Proof.
  induction l as [|hit l IH]; cbn [map]; constructor; [|exact IH].
  apply hit_json_entry.
Qed.

(** X16: when the search of a search route returns (with a total that is
    not [null]), the answer is 200, [count] is the number of hits, and
    [data] has one entry per hit, in order; the entry of a hit is an
    object that holds the [_id] of the hit as [id], its [_source] as
    [source], its [_score] as [score], and no other property. *)
Theorem search_response_counts env w route req r h :
  In r (searches (handle env w route req).2) ->
  search w r = Returned h ->
  total h <> JNull ->
  status (handle env w route req).1 = 200 /\
  body (handle env w route req).1 !! "success" = Some (JBool true) /\
  body (handle env w route req).1 !! "count" =
    Some (JNum (Z.of_nat (length (hits h)))) /\
  body (handle env w route req).1 !! "data" = Some (JArr (map hit_json (hits h))) /\
  length (map hit_json (hits h)) = length (hits h) /\
  exists entries,
    body (handle env w route req).1 !! "data" = Some (JArr entries) /\
    Forall2 (fun hit entry =>
               exists m, entry = JObj m /\
                 m !! "id" = hit_id hit /\ m !! "source" = hit_source hit /\
                 m !! "score" = hit_score hit /\
                 forall k, k <> "id" -> k <> "source" -> k <> "score" ->
                           m !! k = None)
            (hits h) entries.
Proof.
  intros Hin Hs Ht. pose proof (search_route_response env w route req r Hin) as H.
  rewrite Hs in H.
  pose proof (hit_json_entries (hits h)) as Hentries.
  destruct (total h) eqn:Et; try contradiction; cbn [total_value] in H;
    destruct H as (H200 & Hsucc & _ & Hc & Hd);
    repeat split; try assumption; try apply length_map;
    eexists; (split; [exact Hd | exact Hentries]).
Qed.

Lemma search_response_counts_witness :
  body (handle gateway_env working_world SearchPipeData (get [])).1 !! "count" =
    Some (JNum 1).
Proof.
  refine (proj1 (proj2 (proj2 (search_response_counts gateway_env working_world
            SearchPipeData (get [])
            {| index := "mydomain"; query := ExistsField "pipe-20"; size := 10;
               from := None; sort_desc := "@timestamp" |} _ _ eq_refl _)))).
  - left. reflexivity.
  - discriminate.
Defined.

(** X17: the [total] of a search response.  A total object with a truthy
    [value] gives that value; a total object whose [value] is 0 or
    missing gives the object itself; a total that is a number gives the
    number; a [null] total makes the handler answer 500 with
    [success: false]. *)
Theorem search_response_total env w route req r h :
  In r (searches (handle env w route req).2) ->
  search w r = Returned h ->
  (forall m v, total h = JObj m -> m !! "value" = Some v -> truthy_json v = true ->
     body (handle env w route req).1 !! "total" = Some v) /\
  (forall m, total h = JObj m -> truthy_val (m !! "value") = false ->
     body (handle env w route req).1 !! "total" = Some (JObj m)) /\
  (forall n, total h = JNum n ->
     body (handle env w route req).1 !! "total" = Some (JNum n)) /\
  (total h = JNull ->
     status (handle env w route req).1 = 500 /\
     body (handle env w route req).1 !! "success" = Some (JBool false)).
Proof.
  intros Hin Hs. pose proof (search_route_response env w route req r Hin) as H.
  rewrite Hs in H. split; [|split; [|split]].
  - intros m v Et Hv Tv. rewrite Et in H. cbn [total_value] in H.
    destruct H as (_ & _ & Ht & _). rewrite Ht.
    unfold js_or, prop, truthy_val. now rewrite Hv, Tv.
  - intros m Et Tv. rewrite Et in H. cbn [total_value] in H.
    destruct H as (_ & _ & Ht & _). rewrite Ht.
    unfold js_or, prop. now rewrite Tv.
  - intros n Et. rewrite Et in H. cbn [total_value] in H.
    destruct H as (_ & _ & Ht & _). now rewrite Ht.
  - intros Et. rewrite Et in H. exact H.
Qed.

Lemma search_response_total_witness :
  body (handle gateway_env working_world SearchAll (get [])).1 !! "total" =
    Some (JNum 1).
Proof.
  refine (proj1 (search_response_total gateway_env working_world SearchAll (get [])
            {| index := "mydomain"; query := MatchAll; size := 10;
               from := Some 0; sort_desc := "@timestamp" |} _ _ eq_refl)
          (<["value" := JNum 1]> ∅) (JNum 1) eq_refl _ eq_refl).
  - left. reflexivity.
  - reflexivity.
Defined.

(** *** The flags and the cascade of diagnose.js *)

(** X18: the flags of the gateway cover the cascade of diagnose.js.  In
    the catch block of GET /search/real-opensearch, a message the
    cascade calls [TimedOut] sets [timeoutIssue], one it calls
    [DnsFailure] sets [networkIssue], one it calls [AuthorizationFailure]
    sets [authIssue]; and when the four flags are all [false] the cascade
    answers [Unknown].  In GET /test-connection, [TimedOut] and
    [DnsFailure] both set [networkIssue], and [AuthorizationFailure] sets
    [authIssue]. *)
Theorem flags_cover_classify env w req error :
  let m := message error in
  let r := real_opensearch_failed w error in
  (Diagnose.classify m = TimedOut ->
     troubleshooting "timeoutIssue" r = Some (JBool true)) /\
  (Diagnose.classify m = DnsFailure ->
     troubleshooting "networkIssue" r = Some (JBool true)) /\
  (Diagnose.classify m = AuthorizationFailure ->
     troubleshooting "authIssue" r = Some (JBool true)) /\
  (troubleshooting "timeoutIssue" r = Some (JBool false) ->
   troubleshooting "networkIssue" r = Some (JBool false) ->
   troubleshooting "authIssue" r = Some (JBool false) ->
   troubleshooting "indexIssue" r = Some (JBool false) ->
   Diagnose.classify m = Unknown) /\
  (info w = Raised error ->
     (Diagnose.classify m = TimedOut \/ Diagnose.classify m = DnsFailure ->
        troubleshooting "networkIssue" (test_connection env w req).1 =
          Some (JBool true)) /\
     (Diagnose.classify m = AuthorizationFailure ->
        troubleshooting "authIssue" (test_connection env w req).1 =
          Some (JBool true))).
Proof.
  cbv zeta.
  assert (Ht : troubleshooting "timeoutIssue" (real_opensearch_failed w error) =
               Some (JBool (includes (message error) "timeout" ||
                            includes (message error) "Request timed out")))
    by read_field.
  assert (Hn : troubleshooting "networkIssue" (real_opensearch_failed w error) =
               Some (JBool (includes (message error) "ENOTFOUND" ||
                            includes (message error) "ECONNREFUSED")))
    by read_field.
  assert (Ha : troubleshooting "authIssue" (real_opensearch_failed w error) =
               Some (JBool (includes (message error) "403" ||
                            includes (message error) "Forbidden")))
    by read_field.
  rewrite Ht, Hn, Ha. unfold Diagnose.classify.
  destruct (includes (message error) "timeout") eqn:E1,
           (includes (message error) "403") eqn:E2,
           (includes (message error) "ENOTFOUND") eqn:E3; cbn [orb];
    (split; [intros; try discriminate; reflexivity|]);
    (split; [intros; try discriminate; reflexivity|]);
    (split; [intros; try discriminate; reflexivity|]);
    (split; [intros; try discriminate; try reflexivity|]);
    intros Hi; unfold test_connection; rewrite Hi;
    (split; [intros [H|H]; try discriminate | intros H; try discriminate]);
    read_field; rewrite ?E1, ?E2, ?E3; cbn [orb]; rewrite ?orb_true_r; reflexivity.
Qed.

Lemma flags_cover_classify_witness :
  troubleshooting "authIssue"
    (real_opensearch_failed working_world
       (error_of "Response Error: 403 Forbidden")) = Some (JBool true).
Proof.
  apply (proj1 (proj2 (proj2 (flags_cover_classify gateway_env working_world (get [])
           (error_of "Response Error: 403 Forbidden"))))).
  reflexivity.
Defined.

(** *** Query parameters *)

(** X19: no search route ever asks for zero hits: the [size] of the query
    sent is never 0, whatever the request. *)
Theorem size_never_zero env w route req r :
  In r (searches (handle env w route req).2) -> size r <> 0.
Proof.
  assert (Hn : forall v, parseInt_or v 10 <> 0).
  { intros v. unfold parseInt_or. destruct (parseInt v) as [n|]; [|discriminate].
    destruct (Z.eqb_spec n 0); [discriminate | assumption]. }
  destruct route; cbn [handle];
    unfold health, test_connection, send, send_pipe_data, put_record,
      search_all, search_pipe_data, search_real_opensearch;
    try destruct (indices_exists w _) as [[]|e]; cbn [snd searches omap];
    cbn; try tauto; intros [<- | []]; apply Hn.
Qed.

Lemma size_never_zero_witness :
  size {| index := "mydomain"; query := MatchAll;
          size := parseInt_or (Some (QString "0")) 10;
          from := Some 0; sort_desc := "@timestamp" |} <> 0.
Proof.
  apply (size_never_zero gateway_env working_world SearchAll
           (get [("size", QString "0")])).
  left. reflexivity.
Defined.

Lemma append_empty (s : string) : "" +:+ s = s.
Proof. reflexivity. Qed.

Lemma append_String d (s t : string) : String d s +:+ t = String d (s +:+ t).
Proof. reflexivity. Qed.

Lemma trim_start_app s c t :
  is_whitespace c = false ->
  trim_start (s +:+ String c t) = trim_start s +:+ String c t.
Proof.
  intros Hc. induction s as [|d s IH];
    rewrite ?append_empty, ?append_String; cbn [trim_start].
  - now rewrite Hc.
  - destruct (is_whitespace d); [exact IH | reflexivity].
Qed.

Lemma strip_sign_app s c t :
  Ascii.eqb c "-" = false -> Ascii.eqb c "+" = false ->
  strip_sign (s +:+ String c t) =
  ((strip_sign s).1, (strip_sign s).2 +:+ String c t).
Proof.
  intros H1 H2. destruct s as [|d s];
    rewrite ?append_empty, ?append_String; cbn [strip_sign fst snd].
  - now rewrite H1, H2.
  - destruct (Ascii.eqb d "-"); [reflexivity|].
    destruct (Ascii.eqb d "+"); reflexivity.
Qed.

Lemma strip_radix_prefix_app s c t :
  Ascii.eqb c "x" = false -> Ascii.eqb c "X" = false -> Ascii.eqb c "0" = false ->
  strip_radix_prefix (s +:+ String c t) =
  ((strip_radix_prefix s).1, (strip_radix_prefix s).2 +:+ String c t).
Proof.
  intros H1 H2 H3. destruct s as [|d [|e s]];
    rewrite ?append_empty, ?append_String, ?append_empty;
    cbn [strip_radix_prefix fst snd].
  - destruct t; [reflexivity|]. now rewrite H3.
  - rewrite H1, H2. cbn [orb]. now rewrite andb_false_r.
  - destruct (Ascii.eqb d "0" && (Ascii.eqb e "x" || Ascii.eqb e "X")); reflexivity.
Qed.

Lemma strip_radix_prefix_radix s :
  (strip_radix_prefix s).1 = 10 \/ (strip_radix_prefix s).1 = 16.
Proof.
  destruct s as [|d [|e s]]; cbn [strip_radix_prefix fst]; auto.
  destruct (Ascii.eqb d "0" && (Ascii.eqb e "x" || Ascii.eqb e "X")); cbn [fst]; auto.
Qed.

Lemma parse_digits_app radix s c t acc :
  digit_value radix c = None ->
  parse_digits radix (s +:+ String c t) acc = parse_digits radix s acc.
Proof.
  intros Hc. revert acc. induction s as [|d s IH]; intros acc;
    rewrite ?append_empty, ?append_String; cbn [parse_digits].
  - now rewrite Hc.
  - destruct (digit_value radix d); [apply IH | reflexivity].
Qed.

Lemma digit_value_16_10 c : digit_value 16 c = None -> digit_value 10 c = None.
Proof.
  unfold digit_value.
  set (n := Z.of_nat (nat_of_ascii c)).
  destruct ((48 <=? n) && (n <=? 57)).
  - destruct (Z.ltb_spec (n - 48) 16), (Z.ltb_spec (n - 48) 10);
      try discriminate; try reflexivity; lia.
  - destruct ((97 <=? n) && (n <=? 122)).
    + destruct (Z.ltb_spec (n - 87) 16), (Z.ltb_spec (n - 87) 10);
        try discriminate; try reflexivity; lia.
    + destruct ((65 <=? n) && (n <=? 90)); [|reflexivity].
      destruct (Z.ltb_spec (n - 55) 16), (Z.ltb_spec (n - 55) 10);
        try discriminate; try reflexivity; lia.
Qed.

(** Whatever follows a character that stops a number is not read. *)
Lemma parseInt_string_app s c t :
  stops_number c = true ->
  parseInt_string (s +:+ String c t) = parseInt_string s.
Proof.
  unfold stops_number. rewrite !andb_true_iff, !negb_true_iff.
  intros [[[[[Hw Hm] Hp] Hx] HX] Hd].
  destruct (digit_value 16 c) eqn:H16; [discriminate|].
  assert (H0 : Ascii.eqb c "0" = false).
  { destruct (Ascii.eqb_spec c "0") as [->|]; [discriminate | reflexivity]. }
  unfold parseInt_string.
  rewrite trim_start_app, strip_sign_app by assumption.
  destruct (strip_sign (trim_start s)) as [sign s1]. cbn [fst snd].
  rewrite strip_radix_prefix_app by assumption.
  pose proof (strip_radix_prefix_radix s1) as Hr.
  destruct (strip_radix_prefix s1) as [radix s2]. cbn [fst snd] in *.
  rewrite parse_digits_app; [reflexivity|].
  destruct Hr as [-> | ->]; [now apply digit_value_16_10 | assumption].
Qed.

(** X20: [parseInt] reads a number and ignores what follows it: text
    appended after a character that cannot continue a number (a comma, a
    point, a letter such as "p") does not change the value, so "25px"
    is 25 and "1.5" is 1. *)
Theorem parseInt_ignores_suffix s c t :
  stops_number c = true ->
  parseInt (Some (QString (s +:+ String c t))) = parseInt (Some (QString s)).
Proof. intros Hc. cbn. now apply parseInt_string_app. Qed.

Lemma parseInt_ignores_suffix_witness :
  parseInt (Some (QString "25px")) = parseInt (Some (QString "25")).
Proof.
  apply (parseInt_ignores_suffix "25" "p" "x"). reflexivity.
Defined.

(** X21: a repeated parameter ([?size=5&size=6], an array in
    [req.query]) is read as its first value. *)
Theorem parseInt_repeated_parameter s l :
  parseInt (Some (QArray (QString s :: l))) = parseInt (Some (QString s)).
Proof.
  cbn [parseInt toString map]. destruct l as [|q l]; [reflexivity|].
  cbn [map String.concat].
  change (s +:+ "," +:+ String.concat "," (toString q :: map toString l))
    with (s +:+ String "," (String.concat "," (toString q :: map toString l))).
  now apply parseInt_string_app.
Qed.

End GatewayMore.

(** ** The older copy of the gateway *)

Module LegacyFacts.
Import Gateway GatewayScenario GatewayFacts.

Lemma js_object_snoc base fields k v :
  js_object base (fields ++ [(k, v)])%list = set_prop k v (js_object base fields).
Proof. unfold js_object. now rewrite foldl_app. Qed.

(** X22: the older /search/real-opensearch makes no existence check: its
    one call is the search, and it never answers 404.  When the index
    exists, the current handler issues the same search and answers with
    the same status and the same [success], [total], [count], [data],
    [note], [endpoint] and [error]. *)
Theorem legacy_search_unchecked env w req :
  (exists r, (Legacy.search_real_opensearch env w req).2 = [OsSearch r]) /\
  status (Legacy.search_real_opensearch env w req).1 <> 404 /\
  (indices_exists w (env_or env "OPENSEARCH_INDEX" "mydomain") = Returned true ->
     searches (search_real_opensearch env w req).2 =
       searches (Legacy.search_real_opensearch env w req).2 /\
     status (search_real_opensearch env w req).1 =
       status (Legacy.search_real_opensearch env w req).1 /\
     forall k, In k ["success"; "total"; "count"; "data"; "note"; "endpoint"; "error"] ->
       body (search_real_opensearch env w req).1 !! k =
       body (Legacy.search_real_opensearch env w req).1 !! k).
Proof.
  unfold Legacy.search_real_opensearch, search_real_opensearch.
  split; [eexists; reflexivity|]. split.
  - cbn [fst]. destruct (search w _) as [h|e]; [destruct (total_value _)|];
      discriminate.
  - intros ->. cbn [fst snd]. split; [reflexivity|].
    destruct (search w _) as [h|e]; [destruct (total_value _) as [t|e]|];
      (split; [reflexivity|]); intros k Hk; cbn in Hk;
      repeat (destruct Hk as [<- | Hk];
              [unfold Legacy.real_opensearch_failed; read_field|]);
      destruct Hk.
Qed.

Lemma legacy_search_unchecked_witness :
  searches (search_real_opensearch gateway_env working_world (get [])).2 =
    searches (Legacy.search_real_opensearch gateway_env working_world (get [])).2 /\
  status (search_real_opensearch gateway_env working_world (get [])).1 =
    status (Legacy.search_real_opensearch gateway_env working_world (get [])).1.
Proof.
  destruct (proj2 (proj2 (legacy_search_unchecked gateway_env working_world (get [])))
              eq_refl) as (Hs & Ht & _).
  split; [exact Hs | exact Ht].
Defined.

(** X23: the two /health handlers differ by one property: the body of
    the older one is the body of the current one without [region]. *)
Theorem legacy_health_without_region env w req :
  body (Legacy.health env w req).1 = delete "region" (body (health env w req).1) /\
  body (health env w req).1 !! "region" =
    Some (JStr (env_or env "AWS_REGION" "us-east-1")) /\
  status (Legacy.health env w req).1 = status (health env w req).1.
Proof.
  unfold Legacy.health, health, res_json. cbn [fst body status].
  split; [|split; [now rewrite lookup_js_object | reflexivity]].
  match goal with
  | |- _ = delete _ (js_object ∅ (?a :: ?b :: ?c :: ?d :: ?e :: ?f :: ?g :: [?h])) =>
      change (a :: b :: c :: d :: e :: f :: g :: [h])
        with (([a; b; c; d; e; f; g] ++ [h])%list)
  end.
  rewrite js_object_snoc. cbn [set_prop str].
  rewrite delete_insert_id; [reflexivity|]. now rewrite lookup_js_object.
Qed.

End LegacyFacts.
